(** * Payment verification and idempotency core of the sf2 backend

    A shallow embedding of the route handlers of [server.js] (the current
    service) and of its two earlier revisions, together with the parts of
    Node's [crypto] module they call.

    Conventions.  JavaScript strings are Rocq strings read as their UTF-8
    bytes; a request field that may be absent is an [option string];
    numbers are exact rationals, except where a product is taken, which
    is rounded as a double is; the in-memory [Set] is a [gset string];
    the token table [global.successTokens] is an [option (gmap string _)]
    ([None] while the global is still undefined), read through [Js.get],
    which also finds what an object literal inherits.

    A handler is a function from the state it reads and writes to its
    response and the new state.  What the outside world does during the
    request (whether each POST to the sheet goes through, what the gateway
    answers, the clock, the random bytes) is an argument.  A statement
    that throws is a [Throw]: [server.js] calls a function that it does
    not define, and what its handlers do follows from that. *)

From Stdlib Require Import ZArith QArith List Ascii String Bool Lia DecimalString.
From stdpp Require Import gmap strings list.

Local Open Scope Z_scope.

(** ** Node's [crypto]: SHA-256 (FIPS 180-4) and HMAC (RFC 2104) *)

Module Crypto.

(** A byte is a [Z] in [0, 256); a word is a [Z] in [0, 2^32). *)
Definition wrap32 (x : Z) : Z := x mod 2 ^ 32.
Definition add32 (x y : Z) : Z := wrap32 (x + y).
Definition not32 (x : Z) : Z := Z.lxor x 0xffffffff.
Definition rotr (n x : Z) : Z :=
  Z.lor (Z.shiftr x n) (wrap32 (Z.shiftl x (32 - n))).

Definition Ch (x y z : Z) : Z := Z.lxor (Z.land x y) (Z.land (not32 x) z).
Definition Maj (x y z : Z) : Z :=
  Z.lxor (Z.lxor (Z.land x y) (Z.land x z)) (Z.land y z).
Definition bsig0 (x : Z) : Z := Z.lxor (Z.lxor (rotr 2 x) (rotr 13 x)) (rotr 22 x).
Definition bsig1 (x : Z) : Z := Z.lxor (Z.lxor (rotr 6 x) (rotr 11 x)) (rotr 25 x).
Definition ssig0 (x : Z) : Z := Z.lxor (Z.lxor (rotr 7 x) (rotr 18 x)) (Z.shiftr x 3).
Definition ssig1 (x : Z) : Z := Z.lxor (Z.lxor (rotr 17 x) (rotr 19 x)) (Z.shiftr x 10).

(** Words written in hexadecimal, separated by blanks. *)
Definition hex_value (c : ascii) : option Z :=
  let n := Z.of_N (N_of_ascii c) in
  if (48 <=? n) && (n <=? 57) then Some (n - 48)
  else if (97 <=? n) && (n <=? 102) then Some (n - 87)
  else None.

Fixpoint hex_words (s : string) (cur : option Z) : list Z :=
  match s with
  | EmptyString => match cur with Some w => [w] | None => [] end
  | String c r =>
      match hex_value c, cur with
      | Some d, Some w => hex_words r (Some (16 * w + d))
      | Some d, None => hex_words r (Some d)
      | None, Some w => w :: hex_words r None
      | None, None => hex_words r None
      end
  end.

(** The round constants (FIPS 180-4, 4.2.2), as the standard prints them. *)
Definition K256 : list Z :=
  hex_words
    "428a2f98 71374491 b5c0fbcf e9b5dba5 3956c25b 59f111f1 923f82a4 ab1c5ed5
     d807aa98 12835b01 243185be 550c7dc3 72be5d74 80deb1fe 9bdc06a7 c19bf174
     e49b69c1 efbe4786 0fc19dc6 240ca1cc 2de92c6f 4a7484aa 5cb0a9dc 76f988da
     983e5152 a831c66d b00327c8 bf597fc7 c6e00bf3 d5a79147 06ca6351 14292967
     27b70a85 2e1b2138 4d2c6dfc 53380d13 650a7354 766a0abb 81c2c92e 92722c85
     a2bfe8a1 a81a664b c24b8b70 c76c51a3 d192e819 d6990624 f40e3585 106aa070
     19a4c116 1e376c08 2748774c 34b0bcb5 391c0cb3 4ed8aa4a 5b9cca4f 682e6ff3
     748f82ee 78a5636f 84c87814 8cc70208 90befffa a4506ceb bef9a3f7 c67178f2"
    None.

(** The initial hash value (5.3.3). *)
Definition IV256 : list Z :=
  hex_words "6a09e667 bb67ae85 3c6ef372 a54ff53a 510e527f 9b05688c 1f83d9ab 5be0cd19"
    None.

(** Big-endian encodings. *)
Fixpoint be_bytes (n : nat) (x : Z) : list Z :=
  match n with
  | O => []
  | S k => (Z.shiftr x (8 * Z.of_nat k)) mod 256 :: be_bytes k x
  end.

Definition be_word (bs : list Z) : Z :=
  fold_left (fun acc b => acc * 256 + b) bs 0.

(** Padding (FIPS 180-4, 5.1.1): a 1 bit, zeros up to 56 mod 64 bytes,
    then the bit length on eight bytes. *)
Definition pad (msg : list Z) : list Z :=
  let len := Z.of_nat (length msg) in
  msg ++ [0x80] ++ repeat 0 (Z.to_nat ((55 - len) mod 64))
      ++ be_bytes 8 (8 * len).

(** Cut a list into pieces of [n] elements; [fuel] bounds the number of
    pieces and is always given as the length of the list. *)
Fixpoint chunks {A} (fuel n : nat) (l : list A) : list (list A) :=
  match fuel, l with
  | O, _ | _, [] => []
  | S f, _ => firstn n l :: chunks f n (skipn n l)
  end.

Definition words_of (block : list Z) : list Z :=
  map be_word (chunks (length block) 4 block).

(** Message schedule (6.2.2 step 1): sixteen block words, then 48 derived. *)
Fixpoint extend (n : nat) (W : list Z) : list Z :=
  match n with
  | O => W
  | S k =>
      let t := length W in
      let at_ (i : nat) := nth (t - i) W 0 in
      extend k (W ++ [add32 (add32 (ssig1 (at_ 2%nat)) (at_ 7%nat))
                            (add32 (ssig0 (at_ 15%nat)) (at_ 16%nat))])
  end.

Definition schedule (block : list Z) : list Z := extend 48 (words_of block).

(** One round on the working variables a..h. *)
Definition round (v : list Z) (kw : Z * Z) : list Z :=
  match v with
  | [a; b; c; d; e; f; g; h] =>
      let T1 := add32 (add32 (add32 h (bsig1 e)) (add32 (Ch e f g) (fst kw))) (snd kw) in
      let T2 := add32 (bsig0 a) (Maj a b c) in
      [add32 T1 T2; a; b; c; add32 d T1; e; f; g]
  | _ => v
  end.

Definition compress (H : list Z) (block : list Z) : list Z :=
  let v := fold_left round (combine K256 (schedule block)) H in
  map (fun p => add32 (fst p) (snd p)) (combine H v).

Definition sha256 (msg : list Z) : list Z :=
  let p := pad msg in
  flat_map (be_bytes 4) (fold_left compress (chunks (length p) 64 p) IV256).

(** HMAC with a 64-byte block: a key longer than the block is hashed
    first, then zero-filled to the block size. *)
Definition hmac_key (key : list Z) : list Z :=
  let k := if (64 <? Z.of_nat (length key)) then sha256 key else key in
  k ++ repeat 0 (64 - length k)%nat.

Definition hmac_sha256 (key msg : list Z) : list Z :=
  let k := hmac_key key in
  sha256 (map (Z.lxor 0x5c) k ++ sha256 (map (Z.lxor 0x36) k ++ msg)).

(** [Buffer.from(s, 'utf8')] and [buf.toString('hex')]. *)
Definition bytes_of (s : string) : list Z :=
  map (fun c => Z.of_N (N_of_ascii c)) (list_ascii_of_string s).

Definition hex_digit (d : Z) : ascii :=
  nth (Z.to_nat d) (list_ascii_of_string "0123456789abcdef") "0"%char.

Definition is_hex_char (c : ascii) : bool :=
  existsb (Ascii.eqb c) (list_ascii_of_string "0123456789abcdef").

Fixpoint hex (bs : list Z) : string :=
  match bs with
  | [] => EmptyString
  | b :: r => String (hex_digit (b / 16)) (String (hex_digit (b mod 16)) (hex r))
  end.

(** [crypto.createHmac('sha256', key).update(data).digest('hex')] *)
Definition createHmac_sha256_hex (key data : string) : string :=
  hex (hmac_sha256 (bytes_of key) (bytes_of data)).

End Crypto.



(** ** JavaScript values as far as the handlers use them *)

Module Js.

(** Truthiness of a possibly absent string: [undefined] and the empty
    string are falsy. *)
Definition truthy (v : option string) : bool :=
  match v with
  | Some s => negb (String.eqb s "")
  | None => false
  end.

(** [a || b] *)
Definition or (a b : option string) : option string :=
  if truthy a then a else b.

(** [a || ''] where [a] is a string or [undefined]. *)
Definition or_empty (a : option string) : string :=
  match a with Some s => s | None => "" end.

(** Outcome of an [axios] call: the promise resolves with the response
    data, or rejects (no connection, or a status outside 2xx); [err]
    stands for [err.response?.data || err.message]. *)
Inductive Axios (A : Type) : Type :=
| Resolved (data : A)
| Rejected (err : string).
Arguments Resolved {A} data.
Arguments Rejected {A} err.

(** Property names that every object literal inherits from
    [Object.prototype]: reading one of them from [{}] yields a function
    (or the prototype object itself), never [undefined]. *)
Definition Object_prototype : list string :=
  [ "constructor"; "__proto__"; "hasOwnProperty"; "isPrototypeOf";
    "propertyIsEnumerable"; "toLocaleString"; "toString"; "valueOf";
    "__defineGetter__"; "__defineSetter__"; "__lookupGetter__";
    "__lookupSetter__" ]%string.

Definition inherited (k : string) : bool :=
  existsb (String.eqb k) Object_prototype.

(** The result of [obj[k]] on an object used as a table of [A]. *)
Inductive Member (A : Type) : Type :=
| Own (a : A)        (* an own property, stored by the program *)
| Inherited          (* found on the prototype: truthy, no fields of [A] *)
| Undefined.
Arguments Own {A} a.
Arguments Inherited {A}.
Arguments Undefined {A}.

Definition get {A} (obj : gmap string A) (k : string) : Member A :=
  match obj !! k with
  | Some a => Own a
  | None => if inherited k then Inherited else Undefined
  end.

(** What a statement can throw, as far as the handlers can tell. *)
Inductive Exception :=
| ReferenceError (name : string)     (* [name] is not defined *)
| TypeError (reading : string)       (* a property read from [undefined] *)
| RequestError (err : string).       (* a rejected [axios] promise *)

(** How a piece of code ends: with a value, or by throwing.  An [async]
    function that throws returns a rejected promise, which the caller
    that awaits it sees as a throw. *)
Inductive Completion (A : Type) : Type :=
| Normal (a : A)
| Throw (e : Exception).
Arguments Normal {A} a.
Arguments Throw {A} e.

(** The double nearest to an integer, ties to the even significand (the
    rounding of every arithmetic operation); [None] when that is not a
    finite number.  Integers up to 2^53 in size are doubles. *)
Definition to_double (z : Z) : option Z :=
  let a := Z.abs z in
  let e := Z.log2 a - 52 in
  if e <=? 0 then Some z
  else
    let q := a / 2 ^ e in
    let r := a mod 2 ^ e in
    let half := 2 ^ (e - 1) in
    let q' := if (half <? r) || ((r =? half) && Z.odd q) then q + 1 else q in
    if 2 ^ 1024 <=? q' * 2 ^ e then None else Some (Z.sgn z * (q' * 2 ^ e)).

End Js.

(** ** Bytes *)

Module Octet.

(** What a [Buffer] holds. *)
Definition byte (b : Z) : Prop := 0 <= b < 256.

(** A text of lower-case hexadecimal digits. *)
Definition hex_text (s : string) : bool :=
  forallb Crypto.is_hex_char (list_ascii_of_string s).

End Octet.


(** ** The current service: [server.js] *)

Module Server.
Import Js.

Definition FRONTEND_BASE_URL : string := "https://studentforgesf.netlify.app/".

(** *** Data *)

(** What the handlers read of Razorpay's payment entity: [amount] is in
    paise, [pay_json] is the JSON text of the whole entity. *)
Record Payment := {
  pay_status : string;
  pay_amount : Z;
  pay_method : string;
  pay_json : string
}.

(** Rows of the two sheets behind [GSHEET_LOG_URL].  A timestamp is the
    instant that [toISOString] prints; an amount of [None] is the empty
    cell written for a falsy amount. *)
Record TransactionRow := {
  tx_timestamp : Z;
  tx_order_id : string;
  tx_payment_id : string;
  tx_status : string;
  tx_amount : option Q;
  tx_method : string;
  tx_raw_response : string
}.

Record VerificationRow := {
  vl_timestamp : Z;
  vl_step : string;
  vl_order_id : string;
  vl_payment_id : string;
  vl_signature_matched : option bool;
  vl_razorpay_status : string;
  vl_raw_data : string
}.

Record Sheets := {
  transactions : list TransactionRow;
  verification_logs : list VerificationRow
}.

Inductive SheetRow :=
| Transactions (r : TransactionRow)
| VerificationLogs (r : VerificationRow).

(** An entry of [global.successTokens]. *)
Record Token := {
  tok_order_id : string;
  tok_payment_id : string;
  tok_amount : Q;
  expires : Z
}.

(** Everything the handlers read and write: the remote sheets, the
    module-level [processingPayments] set and [global.successTokens]. *)
Record World := {
  sheets : Sheets;
  processingPayments : gset string;
  successTokens : option (gmap string Token)
}.

Definition with_sheets (s : Sheets) (w : World) : World :=
  {| sheets := s; processingPayments := processingPayments w;
     successTokens := successTokens w |}.
Definition with_processing (p : gset string) (w : World) : World :=
  {| sheets := sheets w; processingPayments := p;
     successTokens := successTokens w |}.
Definition with_tokens (t : option (gmap string Token)) (w : World) : World :=
  {| sheets := sheets w; processingPayments := processingPayments w;
     successTokens := t |}.

(** Responses.  [Verdict] is [res.json({ valid, reason })] or
    [res.json({ valid, payment })]; [Confirmed] is the object sent by
    [/validate_success], whose fields are optional because an
    [undefined] field is left out of the JSON text; [Failure] is
    [res.json({ error })]; [Html] is a page sent from a template,
    identified by its heading. *)
Inductive Body :=
| Verdict (valid : bool) (reason : option string) (payment : option Payment)
| Send (text : string)
| Redirect (url : string)
| Confirmed (order_id payment_id : option string) (amount : option Q)
| Failure (error : string)
| Html (heading : string).

Record Response := { code : Z; body : Body }.

Definition json (b : Body) : Response := {| code := 200; body := b |}.
Definition status_json (c : Z) (b : Body) : Response := {| code := c; body := b |}.
Definition status_send (c : Z) (t : string) : Response := {| code := c; body := Send t |}.
Definition redirect (c : Z) (url : string) : Response := {| code := c; body := Redirect url |}.
Definition status_page (c : Z) (heading : string) : Response :=
  {| code := c; body := Html heading |}.


(** *** The sheet endpoint *)

(** A SUCCESS row of the given pair. *)
Definition success_row (order_id payment_id : string) (r : TransactionRow) : bool :=
  String.eqb (tx_order_id r) order_id
  && String.eqb (tx_payment_id r) payment_id
  && String.eqb (tx_status r) "SUCCESS".

(** Number of SUCCESS rows the ledger holds for a pair. *)
Definition success_count (s : Sheets) (order_id payment_id : string) : nat :=
  length (filter (fun r => success_row order_id payment_id r = true) (transactions s)).

(** Modelled from the spec: the script that answers [GSHEET_LOG_URL] is
    not in the repository.  It appends the posted row to the sheet the
    request names (spec 4.3 and 6: an append-only log of structured
    rows). *)
Definition sheet_append (row : SheetRow) (s : Sheets) : Sheets :=
  match row with
  | Transactions r =>
      {| transactions := transactions s ++ [r];
         verification_logs := verification_logs s |}
  | VerificationLogs r =>
      {| transactions := transactions s;
         verification_logs := verification_logs s ++ [r] |}
  end.


(** *** Helpers of [server.js] *)

(** [logToGoogleSheet] (lines 45-56).  [delivered] tells whether the POST
    reaches the sheet; a rejected promise is caught and only printed, so
    the caller never sees the difference. *)
Definition logToGoogleSheet (delivered : bool) (row : SheetRow) (s : Sheets) : Sheets :=
  if delivered then sheet_append row s else s.

(** [isPaymentAlreadyProcessed(order_id, payment_id)].  The file calls a
    function of this name at lines 60, 155 and 449 and defines none: the
    only text of one stands inside the comment of lines 238-421 (at
    272-285), and none of the modules the file loads puts the name in
    scope.  Evaluating the call throws [ReferenceError], before any
    request is sent and before the [await] around it is reached. *)
Definition isPaymentAlreadyProcessed (order_id payment_id : string) : Completion bool :=
  Throw (ReferenceError "isPaymentAlreadyProcessed").

(** The argument of [saveTransaction]; the last three fields hold the
    JSON text of the object, when present. *)
Record TransactionData := {
  order_id : string;
  payment_id : string;
  status : string;
  amount : option Q;
  method : option string;
  raw_payment_response : option string;
  verification_response : option string;
  raw_body : option string
}.

(** [data.amount || '']: zero is falsy. *)
Definition amount_or_empty (a : option Q) : option Q :=
  match a with
  | Some q => if Qeq_bool q 0 then None else Some q
  | None => None
  end.

Definition raw_response_of (data : TransactionData) : string :=
  match raw_payment_response data, verification_response data, raw_body data with
  | Some j, _, _ => j
  | None, Some j, _ => j
  | None, None, Some j => j
  | None, None, None => "{}"
  end.

(** The row [saveTransaction] posts (lines 66-79). *)
Definition transaction_row (now : Z) (data : TransactionData) : TransactionRow :=
  {| tx_timestamp := now;
     tx_order_id := order_id data;
     tx_payment_id := payment_id data;
     tx_status := status data;
     tx_amount := amount_or_empty (amount data);
     tx_method := or_empty (method data);
     tx_raw_response := raw_response_of data |}.

(** [saveTransaction] (lines 58-80).  [delivered] is the fate of its POST,
    [now] the clock when the row is built.  For status SUCCESS the call of
    line 60 comes first. *)
Definition saveTransaction
    (delivered : bool) (now : Z) (data : TransactionData) (s : Sheets)
  : Completion unit * Sheets :=
  let logged :=
    (Normal tt, logToGoogleSheet delivered (Transactions (transaction_row now data)) s) in
  if String.eqb (status data) "SUCCESS"
  then
    match isPaymentAlreadyProcessed (order_id data) (payment_id data) with
    | Throw e => (Throw e, s)
    | Normal already => if already then (Normal tt, s) else logged
    end
  else logged.

(** The argument of [saveVerificationLog]: the fields it reads. *)
Record VerificationLog := {
  step : string;
  log_order_id : string;
  log_payment_id : string;
  signature_matched : option bool;
  razorpay_status : option string;
  full_response : option string;
  error : option string
}.

(** [saveVerificationLog] (lines 82-96). *)
Definition saveVerificationLog
    (delivered : bool) (now : Z) (log : VerificationLog) (s : Sheets) : Sheets :=
  logToGoogleSheet delivered
    (VerificationLogs
       {| vl_timestamp := now;
          vl_step := step log;
          vl_order_id := log_order_id log;
          vl_payment_id := log_payment_id log;
          vl_signature_matched := signature_matched log;
          vl_razorpay_status := or_empty (razorpay_status log);
          vl_raw_data :=
            match full_response log, error log with
            | Some j, _ => j
            | None, Some j => j
            | None, None => "{}"
            end |})
    s.

(** *** What the outside world does during one request *)

(** How a request to [/verify_payment] fares on the network. *)
Inductive Link :=
| Unreachable        (* the request never arrives *)
| ReplyLost          (* it is served, the response is lost *)
| Answered.

(** Environment of one [/verify_payment] request.  [gsheet n] tells
    whether the [n]-th POST to the sheet made by the request goes
    through, [clock n] is the [n]-th clock reading that ends up in a row. *)
Record Env := {
  RAZORPAY_KEY_SECRET : string;
  clock : nat -> Z;
  gsheet : nat -> bool;
  razorpay_payment : string -> Axios Payment
}.

(** *** [POST /verify_payment] (lines 150-235) *)

Record VerifyRequest := {
  body_order_id : string;
  body_payment_id : string;
  body_signature : string
}.

Definition generated_signature (secret order_id payment_id : string) : string :=
  Crypto.createHmac_sha256_hex secret (order_id +:+ "|" +:+ payment_id).

Definition signatureMatched (secret order_id payment_id signature : string) : bool :=
  String.eqb (generated_signature secret order_id payment_id) signature.

(** The handler.  The call of line 155 stands outside any [try]: when it
    throws, the promise of the handler is rejected and the handler has
    sent nothing. *)
Definition verify_payment (env : Env) (req : VerifyRequest) (w : World)
  : Completion Response * World :=
  let order_id := body_order_id req in
  let payment_id := body_payment_id req in
  let signature := body_signature req in
  match isPaymentAlreadyProcessed order_id payment_id with
  | Throw e => (Throw e, w)
  | Normal alreadyVerified =>
      if alreadyVerified
      then (Normal (json (Verdict false (Some "Payment already processed") None)), w)
      else
        let matched :=
          signatureMatched (RAZORPAY_KEY_SECRET env) order_id payment_id signature in
        let s1 :=
          saveVerificationLog (gsheet env 0) (clock env 0)
            {| step := "SIGNATURE_VERIFICATION";
               log_order_id := order_id; log_payment_id := payment_id;
               signature_matched := Some matched;
               razorpay_status := None; full_response := None; error := None |}
            (sheets w) in
        if negb matched
        then (Normal (json (Verdict false (Some "Signature mismatch") None)),
              with_sheets s1 w)
        else
          match razorpay_payment env payment_id with
          | Resolved data =>
              let s2 :=
                saveVerificationLog (gsheet env 1) (clock env 1)
                  {| step := "STATUS_API";
                     log_order_id := order_id; log_payment_id := payment_id;
                     signature_matched := None;
                     razorpay_status := Some (pay_status data);
                     full_response := Some (pay_json data); error := None |}
                  s1 in
              if negb (String.eqb (pay_status data) "captured")
              then (Normal (json (Verdict false (Some "Payment not captured") None)),
                    with_sheets s2 w)
              else (Normal (json (Verdict true None (Some data))), with_sheets s2 w)
          | Rejected err =>
              let s2 :=
                saveVerificationLog (gsheet env 1) (clock env 1)
                  {| step := "STATUS_API_ERROR";
                     log_order_id := order_id; log_payment_id := payment_id;
                     signature_matched := None;
                     razorpay_status := None; full_response := None;
                     error := Some err |}
                  s1 in
              (Normal (status_json 500 (Verdict false (Some "Status API failed") None)),
               with_sheets s2 w)
          end
  end.

(** *** [POST /payment_callback] (lines 423-506) *)

Record CallbackParams := {
  razorpay_payment_id : option string;
  razorpay_order_id : option string;
  razorpay_signature : option string
}.

Record CallbackRequest := { req_body : CallbackParams; req_query : CallbackParams }.

(** Environment of one [/payment_callback] request: the fate of its POST
    to the sheet and its clock, what the request of line 458 to the
    deployed service's [/verify_payment] settles with, and the bytes
    [crypto.randomBytes(16)] returns. *)
Record CallbackEnv := {
  cb_clock : nat -> Z;
  cb_gsheet : nat -> bool;
  verify_reply : Axios Body;
  randomBytes : list Z
}.

Definition mint (token : string) (t : Token) (w : World) : World :=
  with_tokens (Some (<[token := t]> (default ∅ (successTokens w)))) w.

(** The object the callback passes to [saveTransaction] (lines 473-480). *)
Definition success_data (order_id payment_id : string) (payment : Payment)
  : TransactionData :=
  {| order_id := order_id; payment_id := payment_id;
     status := "SUCCESS";
     amount := Some (inject_Z (pay_amount payment) / 100)%Q;
     method := Some (pay_method payment);
     raw_payment_response := Some (pay_json payment);
     verification_response := None; raw_body := None |}.

(** The entry stored under the token (lines 487-492); [now] is
    [Date.now()]. *)
Definition token_for (order_id payment_id : string) (payment : Payment) (now : Z)
  : Token :=
  {| tok_order_id := order_id; tok_payment_id := payment_id;
     tok_amount := (inject_Z (pay_amount payment) / 100)%Q;
     expires := now + 5 * 60 * 1000 |}.

Definition success_redirect (successToken : string) : Response :=
  redirect 302 (FRONTEND_BASE_URL +:+ "payment_success.html?ref=" +:+ successToken).

(** The [try] block of the callback (lines 447-496), entered with the
    lock taken: how it ends, by a response or by a throw. *)
Definition callback_try
    (env : CallbackEnv) (order_id payment_id signature : string) (w : World)
  : Completion Response * World :=
  match isPaymentAlreadyProcessed order_id payment_id with
  | Throw e => (Throw e, w)
  | Normal alreadyProcessed =>
      if alreadyProcessed
      then (Normal (status_send 409 "Duplicate payment ignored"), w)
      else
        match verify_reply env with
        | Rejected err => (Throw (RequestError err), w)
        | Resolved (Verdict true _ (Some payment)) =>
            match saveTransaction (cb_gsheet env 0) (cb_clock env 0)
                    (success_data order_id payment_id payment) (sheets w) with
            | (Throw e, s) => (Throw e, with_sheets s w)
            | (Normal _, s) =>
                let successToken := Crypto.hex (randomBytes env) in
                (Normal (success_redirect successToken),
                 mint successToken
                   (token_for order_id payment_id payment (cb_clock env 1))
                   (with_sheets s w))
            end
        | Resolved (Verdict true _ None) | Resolved (Confirmed _ _ _) =>
            (* [valid] is true and [payment] is [undefined] *)
            (Throw (TypeError "amount"), w)
        | Resolved (Verdict false _ _) | Resolved (Send _) | Resolved (Redirect _)
        | Resolved (Failure _) | Resolved (Html _) =>
            (Normal (status_send 400 "Verification failed"), w)
        end
  end.

(** [req.body.x || req.query.x] for the three parameters. *)
Definition payment_id_of (req : CallbackRequest) : option string :=
  or (razorpay_payment_id (req_body req)) (razorpay_payment_id (req_query req)).
Definition order_id_of (req : CallbackRequest) : option string :=
  or (razorpay_order_id (req_body req)) (razorpay_order_id (req_query req)).
Definition signature_of (req : CallbackRequest) : option string :=
  or (razorpay_signature (req_body req)) (razorpay_signature (req_query req)).

Definition missing_parameters (req : CallbackRequest) : bool :=
  negb (truthy (payment_id_of req)) || negb (truthy (order_id_of req))
  || negb (truthy (signature_of req)).

(** The handler: the two early exits, then [try], [catch] (lines
    498-500) and [finally] (lines 502-504). *)
Definition payment_callback (env : CallbackEnv) (req : CallbackRequest) (w : World)
  : Response * World :=
  let razorpay_payment_id := payment_id_of req in
  let razorpay_order_id := order_id_of req in
  let razorpay_signature := signature_of req in
  if missing_parameters req
  then (status_send 400 "Missing parameters", w)
  else
    let payment_id := or_empty razorpay_payment_id in
    if decide (payment_id ∈ processingPayments w)
    then (status_send 409 "Duplicate request blocked", w)
    else
      let w1 := with_processing ({[payment_id]} ∪ processingPayments w) w in
      let '(tried, w2) :=
        callback_try env (or_empty razorpay_order_id) payment_id
          (or_empty razorpay_signature) w1 in
      let resp :=
        match tried with
        | Normal resp => resp
        | Throw _ => status_send 500 "Server error"     (* catch *)
        end in
      (* finally *)
      (resp, with_processing (processingPayments w2 ∖ {[payment_id]}) w2).

(** *** [GET /validate_success] (lines 529-551) *)

Definition forbidden : Response := status_json 403 (Verdict false None None).

Definition validate_success (now : Z) (ref : option string) (w : World)
  : Response * World :=
  match successTokens w with
  | Some tokens =>
      if truthy ref then
        let ref := or_empty ref in
        match get tokens ref with
        | Undefined => (forbidden, w)
        | Own data =>
            if now >? expires data
            then (forbidden, with_tokens (Some (delete ref tokens)) w)
            else
              (json (Confirmed (Some (tok_order_id data)) (Some (tok_payment_id data))
                       (Some (tok_amount data))),
               with_tokens (Some (delete ref tokens)) w)
        | Inherited =>
            (* [data.expires] is [undefined]: the comparison is false *)
            (json (Confirmed None None None),
             with_tokens (Some (delete ref tokens)) w)
        end
      else (forbidden, w)
  | None => (forbidden, w)
  end.

End Server.

(** ** The service as a process

    No handler of [server.js] reaches an [await] before it has ended: in
    [/verify_payment] and in the [try] block of [/payment_callback] the
    operand of the first [await] throws, and [/validate_success] has none.
    So each request is handled within one turn of the event loop, and
    requests that arrive together are handled one after the other.
    [/create_order] and [/verify_phone] read and write none of the state
    below and are left out. *)

Module Service.
Import Js Server.

Inductive Request :=
| VerifyPayment (env : Env) (req : VerifyRequest)
| PaymentCallback (env : CallbackEnv) (req : CallbackRequest)
| ValidateSuccess (now : Z) (ref : option string)
| Restart.
    (* the process ends and is started again, as a process may be after
       a rejected promise that nothing handles; the sheets are remote *)

(** A process that has just started. *)
Definition started (s : Sheets) : World :=
  {| sheets := s; processingPayments := ∅; successTokens := None |}.

Definition handle (r : Request) (w : World) : World :=
  match r with
  | VerifyPayment env req => snd (verify_payment env req w)
  | PaymentCallback env req => snd (payment_callback env req w)
  | ValidateSuccess now ref => snd (validate_success now ref w)
  | Restart => started (sheets w)
  end.

(** Handling a list of requests, first to last. *)
Definition run (requests : list Request) (w : World) : World :=
  fold_left (fun w r => handle r w) requests w.

End Service.

(** ** The two earlier revisions of the service

  Both keep the ledger in a local file [transactions.json] and have no
  duplicate check, lock or token.  [saveTransaction] and
  [/verify_payment] are the same text in both; the callback below is the
  POST handler of the later one. *)

Module Legacy.
Import Js.
Export Server (Payment, pay_status, pay_amount, pay_method, pay_json,
               Response, code, body, Body, Verdict, Send, Redirect, Confirmed,
               Failure, Html, json, status_json, status_page, generated_signature,
               Link, Unreachable, ReplyLost, Answered).

Record CallbackParams := {
  razorpay_payment_id : option string;
  razorpay_order_id : option string;
  razorpay_signature : option string
}.

Record CallbackRequest := { req_body : CallbackParams; req_query : CallbackParams }.

(** An element of the array in [transactions.json]: the object passed to
    [saveTransaction], as it is.  A field the object does not have is
    [None]. *)
Record Transaction := {
  order_id : string;
  payment_id : string;
  status : string;
  amount : option Z;
  method : option string;
  reason : option string;
  raw_body : option CallbackParams;
  raw_query : option CallbackParams;
  verification_response : option Body;
  raw_payment_response : option Payment;
  error : option string;
  time : Z
}.

(** The file: [None] while it does not exist. *)
Definition File : Type := option (list Transaction).

(** [saveTransaction] (later revision lines 280-288, earlier 206-214). *)
Definition saveTransaction (data : Transaction) (file : File) : File :=
  let existing := match file with Some l => l | None => [] end in
  Some (existing ++ [data]).

Definition success_row (order_id payment_id : string) (r : Transaction) : bool :=
  String.eqb (Legacy.order_id r) order_id
  && String.eqb (Legacy.payment_id r) payment_id
  && String.eqb (status r) "SUCCESS".

(** Number of SUCCESS entries the file holds for a pair. *)
Definition success_count (file : File) (order_id payment_id : string) : nat :=
  length (filter (fun r => success_row order_id payment_id r = true)
            (match file with Some l => l | None => [] end)).

Record Env := {
  RAZORPAY_KEY_SECRET : string;
  clock : Z;
  razorpay_payment : string -> Axios Payment
}.

Record VerifyRequest := {
  body_order_id : string;
  body_payment_id : string;
  body_signature : string
}.

(** [POST /verify_payment] (later revision lines 95-135, earlier 92-132). *)
Definition verify_payment (env : Env) (req : VerifyRequest) (file : File)
  : Response * File :=
  let order_id := body_order_id req in
  let payment_id := body_payment_id req in
  let signature := body_signature req in
  if negb (String.eqb (generated_signature (RAZORPAY_KEY_SECRET env) order_id payment_id)
                      signature)
  then (json (Verdict false (Some "Signature mismatch") None), file)
  else
    match razorpay_payment env payment_id with
    | Rejected _ => (status_json 500 (Failure "Verification failed"), file)
    | Resolved data =>
        if negb (String.eqb (pay_status data) "captured")
        then (json (Verdict false (Some "Payment not captured") None), file)
        else
          (json (Verdict true None (Some data)),
           saveTransaction
             {| order_id := order_id; payment_id := payment_id;
                status := "SUCCESS"; amount := Some (pay_amount data);
                method := None; reason := None;
                raw_body := None; raw_query := None;
                verification_response := None; raw_payment_response := None;
                error := None; time := clock env |}
             file)
    end.

Record CallbackEnv := {
  cb_clock : Z;
  verify_link : Link;
  verify_env : Env
}.

(** The callback's request to [/verify_payment]; a rejected promise
    carries [err.message]. *)
Definition post_verify_payment
    (link : Link) (env : Env) (req : VerifyRequest) (file : File)
  : Axios Body * File :=
  match link with
  | Unreachable => (Rejected "Network Error", file)
  | ReplyLost => (Rejected "Network Error", snd (verify_payment env req file))
  | Answered =>
      let '(resp, file') := verify_payment env req file in
      if (200 <=? code resp) && (code resp <? 300)
      then (Resolved (body resp), file')
      else
        (Rejected ("Request failed with status code "
                   +:+ NilZero.string_of_int (Z.to_int (code resp))),
         file')
  end.

(** The three FAILED objects of the callback.  The one for missing
    parameters (lines 170-178) stores the body and the query as they
    arrived. *)
Definition failed_missing (order_id payment_id : string) (req : CallbackRequest) (now : Z)
  : Transaction :=
  {| order_id := order_id; payment_id := payment_id; status := "FAILED";
     amount := None; method := None;
     reason := Some "Missing Razorpay callback parameters";
     raw_body := Some (req_body req); raw_query := Some (req_query req);
     verification_response := None; raw_payment_response := None;
     error := None; time := now |}.

(** The one for a refused verification (lines 201-208) stores the answer
    of the verification. *)
Definition failed_verification (order_id payment_id : string) (data : Body) (now : Z)
  : Transaction :=
  {| order_id := order_id; payment_id := payment_id; status := "FAILED";
     amount := None; method := None;
     reason := Some "Signature mismatch or payment not captured";
     raw_body := None; raw_query := None;
     verification_response := Some data; raw_payment_response := None;
     error := None; time := now |}.

(** The one of the catch block (lines 242-249) stores the message of the
    error. *)
Definition failed_error (order_id payment_id message : string) (now : Z) : Transaction :=
  {| order_id := order_id; payment_id := payment_id; status := "FAILED";
     amount := None; method := None;
     reason := Some "Server error during verification";
     raw_body := None; raw_query := None;
     verification_response := None; raw_payment_response := None;
     error := Some message; time := now |}.

(** [req.body.x || req.query.x] for the three parameters. *)
Definition payment_id_of (req : CallbackRequest) : option string :=
  or (razorpay_payment_id (req_body req)) (razorpay_payment_id (req_query req)).
Definition order_id_of (req : CallbackRequest) : option string :=
  or (razorpay_order_id (req_body req)) (razorpay_order_id (req_query req)).
Definition signature_of (req : CallbackRequest) : option string :=
  or (razorpay_signature (req_body req)) (razorpay_signature (req_query req)).

Definition missing_parameters (req : CallbackRequest) : bool :=
  negb (truthy (payment_id_of req)) || negb (truthy (order_id_of req))
  || negb (truthy (signature_of req)).

(** [POST /payment_callback] (later revision lines 141-256). *)
Definition payment_callback (env : CallbackEnv) (req : CallbackRequest) (file : File)
  : Response * File :=
  let razorpay_payment_id := payment_id_of req in
  let razorpay_order_id := order_id_of req in
  let razorpay_signature := signature_of req in
  if missing_parameters req
  then
    (status_page 400 "Payment Failed",
     saveTransaction
       (failed_missing
          (if truthy razorpay_order_id then or_empty razorpay_order_id else "NA")
          (if truthy razorpay_payment_id then or_empty razorpay_payment_id else "NA")
          req (cb_clock env))
       file)
  else
    let order_id := or_empty razorpay_order_id in
    let payment_id := or_empty razorpay_payment_id in
    let '(verifyResp, file1) :=
      post_verify_payment (verify_link env) (verify_env env)
        {| body_order_id := order_id; body_payment_id := payment_id;
           body_signature := or_empty razorpay_signature |} file in
    let on_error (message : string) :=
      (status_page 500 "Payment Error",
       saveTransaction (failed_error order_id payment_id message (cb_clock env)) file1) in
    match verifyResp with
    | Rejected message => on_error message
    | Resolved (Verdict true _ (Some payment)) =>
        (status_page 200 "Payment Successful",
         saveTransaction
           {| order_id := order_id; payment_id := payment_id;
              status := "SUCCESS"; amount := Some (pay_amount payment);
              method := Some (pay_method payment); reason := None;
              raw_body := None; raw_query := None;
              verification_response := None;
              raw_payment_response := Some payment;
              error := None; time := cb_clock env |}
           file1)
    | Resolved (Verdict true _ None) | Resolved (Confirmed _ _ _) =>
        (* [payment] is [undefined]: reading [payment.amount] throws *)
        on_error "Cannot read properties of undefined (reading 'amount')"
    | Resolved (Verdict false _ _ as data) | Resolved (Send _ as data)
    | Resolved (Redirect _ as data) | Resolved (Failure _ as data)
    | Resolved (Html _ as data) =>
        (status_page 200 "Payment Failed",
         saveTransaction (failed_verification order_id payment_id data (cb_clock env))
           file1)
    end.

End Legacy.

(** ** The GET callback of the earliest revision

    The earliest revision answers the gateway's redirect with a page.  It
    reads the three parameters from the query string only, sends them to
    its own [/verify_payment] (the one of [Legacy]) and saves nothing
    itself. *)

Module Earliest.
Import Js.
Export Legacy (CallbackParams, razorpay_payment_id, razorpay_order_id,
               razorpay_signature, CallbackEnv, cb_clock, verify_link, verify_env,
               File, Transaction).

Definition missing_parameters (query : CallbackParams) : bool :=
  negb (truthy (razorpay_payment_id query)) || negb (truthy (razorpay_order_id query))
  || negb (truthy (razorpay_signature query)).

(** [GET /payment_callback] (earliest revision, lines 139-183).  Every
    page goes out with the default status. *)
Definition payment_callback (env : CallbackEnv) (query : CallbackParams) (file : File)
  : Server.Response * File :=
  if missing_parameters query
  then (Server.status_page 200 "Payment Failed", file)
  else
    let '(verifyResp, file1) :=
      Legacy.post_verify_payment (verify_link env) (verify_env env)
        {| Legacy.body_order_id := or_empty (razorpay_order_id query);
           Legacy.body_payment_id := or_empty (razorpay_payment_id query);
           Legacy.body_signature := or_empty (razorpay_signature query) |} file in
    match verifyResp with
    | Rejected _ => (Server.status_page 200 "Payment Error", file1)
    | Resolved (Server.Verdict true _ (Some payment)) =>
        (Server.status_page 200 "Payment Successful", file1)
    | Resolved (Server.Verdict true _ None) | Resolved (Server.Confirmed _ _ _) =>
        (* [payment.amount] on [undefined] throws inside the template *)
        (Server.status_page 200 "Payment Error", file1)
    | Resolved (Server.Verdict false _ _) | Resolved (Server.Send _)
    | Resolved (Server.Redirect _) | Resolved (Server.Failure _)
    | Resolved (Server.Html _) =>
        (Server.status_page 200 "Payment Failed", file1)
    end.

End Earliest.


(** ** Entries of the file ledger *)

Module Entries.
Import Js.

(** The object [/verify_payment] saves for a captured payment (later
    revision lines 122-128, earliest 119-125). *)
Definition verified (env : Legacy.Env) (req : Legacy.VerifyRequest) (data : Server.Payment)
  : Legacy.Transaction :=
  {| Legacy.order_id := Legacy.body_order_id req;
     Legacy.payment_id := Legacy.body_payment_id req;
     Legacy.status := "SUCCESS";
     Legacy.amount := Some (Server.pay_amount data);
     Legacy.method := None; Legacy.reason := None;
     Legacy.raw_body := None; Legacy.raw_query := None;
     Legacy.verification_response := None; Legacy.raw_payment_response := None;
     Legacy.error := None;
     Legacy.time := Legacy.clock env |}.

(** The object the POST callback saves on success (lines 219-227). *)
Definition confirmed (now : Z) (order_id payment_id : string) (payment : Server.Payment)
  : Legacy.Transaction :=
  {| Legacy.order_id := order_id; Legacy.payment_id := payment_id;
     Legacy.status := "SUCCESS";
     Legacy.amount := Some (Server.pay_amount payment);
     Legacy.method := Some (Server.pay_method payment);
     Legacy.reason := None;
     Legacy.raw_body := None; Legacy.raw_query := None;
     Legacy.verification_response := None;
     Legacy.raw_payment_response := Some payment;
     Legacy.error := None;
     Legacy.time := now |}.

(** The body a callback posts to [/verify_payment]. *)
Definition posted (order_id payment_id signature : option string) : Legacy.VerifyRequest :=
  {| Legacy.body_order_id := or_empty order_id;
     Legacy.body_payment_id := or_empty payment_id;
     Legacy.body_signature := or_empty signature |}.

End Entries.

(** ** The course catalog and [POST /create_order]

    The same text in the three revisions ([server.js] lines 28-42 and
    100-145).  [courses.json] is not in the repository: the list of its
    entries is an argument.  A price is the number [JSON.parse] gives,
    taken to be a whole number of rupees. *)

Module Orders.
Import Js.

(** An entry of [courses.json] as the loader reads it. *)
Record Course := { name : string; price : Z }.

(** [allowedCourses[course.name] = course.price].  Assigning a number to
    the [__proto__] of an object literal changes nothing. *)
Definition assign (allowedCourses : gmap string Z) (course : Course) : gmap string Z :=
  if String.eqb (name course) "__proto__" then allowedCourses
  else <[name course := price course]> allowedCourses.

(** [courses.forEach(...)] on the empty object (lines 29-36). *)
Definition load (courses : list Course) : gmap string Z :=
  fold_left assign courses ∅.

(** The price the catalog is to show for a name: that of the last entry
    of the file with that name. *)
Fixpoint last_price (k : string) (courses : list Course) : option Z :=
  match courses with
  | [] => None
  | c :: rest =>
      match last_price k rest with
      | Some q => Some q
      | None => if String.eqb (name c) k then Some (price c) else None
      end
  end.

(** The body posted to the gateway's orders API (lines 116-121).
    [amount] is [None] when the product is not a finite number, which
    JSON prints as [null]. *)
Record OrderRequest := {
  amount : option Z;
  currency : string;
  receipt : string;
  payment_capture : Z
}.

(** What the handler reads of the order the gateway returns. *)
Record Order := { id : string; order_amount : Z; order_currency : string }.

(** Outcome of the POST to the orders API.  [data] is the body of an
    error response as text, empty when it has none. *)
Inductive Outcome :=
| Created (data : Order)
| Refused (data : string) (message : string)   (* [err.response.data], [err.message] *)
| Failed (message : string).                    (* no response: [err.message] *)

Record Env := {
  RAZORPAY_KEY_ID : string;
  Date_now : Z;
  orders_api : OrderRequest -> Outcome
}.

Inductive Body :=
| Error (error : string)                      (* [{ error }] *)
| Relayed (data : string)                     (* the gateway's error body *)
| OrderCreated (order_id : string) (amount : Z) (currency course key : string).

Record Response := { code : Z; body : Body }.

(** [allowedCourses[course]] as a condition: an own price is truthy
    unless it is zero, an inherited property is truthy. *)
Definition truthy_price (m : Member Z) : bool :=
  match m with
  | Own q => negb (q =? 0)
  | Inherited => true
  | Undefined => false
  end.

(** [amount * 100], a product of doubles; what a course name inherits
    is a function or an object, and the product is not a number. *)
Definition times_100 (m : Member Z) : option Z :=
  match m with
  | Own q => to_double (q * 100)
  | Inherited | Undefined => None
  end.

(** [`receipt_${Date.now()}`] *)
Definition receipt_of (now : Z) : string :=
  "receipt_" +:+ NilZero.string_of_int (Z.to_int now).

(** [POST /create_order] (lines 100-145), [course] being the field of
    that name of the body: the response, and the request sent to the
    gateway if one was sent. *)
Definition create_order (env : Env) (allowedCourses : gmap string Z) (course : option string)
  : Response * option OrderRequest :=
  let found := get allowedCourses (or_empty course) in
  if negb (truthy course) || negb (truthy_price found)
  then ({| code := 400; body := Error "Invalid course selected" |}, None)
  else
    let request :=
      {| amount := times_100 found; currency := "INR";
         receipt := receipt_of (Date_now env); payment_capture := 1 |} in
    (match orders_api env request with
     | Created data =>
         {| code := 200;
            body := OrderCreated (id data) (order_amount data) (order_currency data)
                      (or_empty course) (RAZORPAY_KEY_ID env) |}
     | Refused data message =>
         (* [err.response?.data || { error: err.message }] *)
         {| code := 500;
            body := if String.eqb data "" then Error message else Relayed data |}
     | Failed message => {| code := 500; body := Error message |}
     end,
     Some request).

End Orders.

(** ** A sample catalog *)

Module Shop.
Import Orders.

(** A file in which one course is listed twice and one is free. *)
Definition courses : list Course :=
  [ {| name := "Python Basics"; price := 499 |};
    {| name := "Web Development"; price := 999 |};
    {| name := "Python Basics"; price := 599 |};
    {| name := "Orientation"; price := 0 |} ].

Definition order_1 : Order :=
  {| id := "order_1"; order_amount := 59900; order_currency := "INR" |}.

Definition env_of (gateway : Outcome) : Env :=
  {| RAZORPAY_KEY_ID := "rzp_test_key";
     Date_now := 1700000000000;
     orders_api := fun _ => gateway |}.

End Shop.

(** ** Concrete requests and environments used in the examples *)

Module Samples.
Import Js Server.

Definition captured : Payment :=
  {| pay_status := "captured"; pay_amount := 49900; pay_method := "upi";
     pay_json := "{id:pay_1,status:captured,amount:49900,method:upi}" |}.

Definition authorized : Payment :=
  {| pay_status := "authorized"; pay_amount := 49900; pay_method := "upi";
     pay_json := "{id:pay_1,status:authorized,amount:49900,method:upi}" |}.

Definition signature_1 : string :=
  "44422d618d76e6e81c5f002f4d5108385750b52eb8db4e9c7a4231ddfac02840".

Definition request_1 : VerifyRequest :=
  {| body_order_id := "order_1"; body_payment_id := "pay_1";
     body_signature := signature_1 |}.

(** An environment in which the gateway answers [gateway] and every sheet
    request fares as [up]. *)
Definition env_of (gateway : Axios Payment) (up : bool) : Env :=
  {| RAZORPAY_KEY_SECRET := "s3cret";
     clock := fun n => 1700000000000 + Z.of_nat n;
     gsheet := fun _ => up;
     razorpay_payment := fun _ => gateway |}.

Definition no_sheets : Sheets := {| transactions := []; verification_logs := [] |}.

(** The state of a freshly started process with empty sheets. *)
Definition fresh : World :=
  {| sheets := no_sheets; processingPayments := ∅; successTokens := None |}.

Definition params_1 : CallbackParams :=
  {| razorpay_payment_id := Some "pay_1"; razorpay_order_id := Some "order_1";
     razorpay_signature := Some signature_1 |}.

Definition no_params : CallbackParams :=
  {| razorpay_payment_id := None; razorpay_order_id := None;
     razorpay_signature := None |}.

(** The callback delivered as a form POST. *)
Definition callback_1 : CallbackRequest :=
  {| req_body := params_1; req_query := no_params |}.

Definition bytes_1 : list Z :=
  [0x00; 0x11; 0x22; 0x33; 0x44; 0x55; 0x66; 0x77;
   0x88; 0x99; 0xaa; 0xbb; 0xcc; 0xdd; 0xee; 0xff].

(** An environment of the callback in which the deployed service would
    answer [reply] and every sheet request fares as [up]. *)
Definition cb_env_of (reply : Axios Body) (up : bool) : CallbackEnv :=
  {| cb_clock := fun n => 1700000001000 + Z.of_nat n;
     cb_gsheet := fun _ => up;
     verify_reply := reply;
     randomBytes := bytes_1 |}.

(** The SUCCESS entry the callback of the earlier revision saves for
    order_1 / pay_1. *)
Definition legacy_success : Legacy.Transaction :=
  {| Legacy.order_id := "order_1"; Legacy.payment_id := "pay_1";
     Legacy.status := "SUCCESS"; Legacy.amount := Some 49900;
     Legacy.method := Some "upi"; Legacy.reason := None;
     Legacy.raw_body := None; Legacy.raw_query := None;
     Legacy.verification_response := None;
     Legacy.raw_payment_response := Some captured;
     Legacy.error := None;
     Legacy.time := 1600000001000 |}.


Definition legacy_request_1 : Legacy.VerifyRequest :=
  {| Legacy.body_order_id := "order_1"; Legacy.body_payment_id := "pay_1";
     Legacy.body_signature := signature_1 |}.

Definition legacy_env_of (gateway : Axios Payment) : Legacy.Env :=
  {| Legacy.RAZORPAY_KEY_SECRET := "s3cret";
     Legacy.clock := 1600000000000;
     Legacy.razorpay_payment := fun _ => gateway |}.

Definition legacy_callback_1 : Legacy.CallbackRequest :=
  {| Legacy.req_body :=
       {| Legacy.razorpay_payment_id := Some "pay_1";
          Legacy.razorpay_order_id := Some "order_1";
          Legacy.razorpay_signature := Some signature_1 |};
     Legacy.req_query :=
       {| Legacy.razorpay_payment_id := None; Legacy.razorpay_order_id := None;
          Legacy.razorpay_signature := None |} |}.

Definition legacy_cb_env_of (link : Link) (gateway : Axios Payment) : Legacy.CallbackEnv :=
  {| Legacy.cb_clock := 1600000001000;
     Legacy.verify_link := link;
     Legacy.verify_env := legacy_env_of gateway |}.

End Samples.

(** ** More sample requests and states *)

Module Cases.
Import Js Server.

(** The signature of order_1 / pay_1 written in upper case. *)
Definition upper_request : Legacy.VerifyRequest :=
  {| Legacy.body_order_id := "order_1"; Legacy.body_payment_id := "pay_1";
     Legacy.body_signature :=
       "44422D618D76E6E81C5F002F4D5108385750B52EB8DB4E9C7A4231DDFAC02840" |}.

(** The same signature cut to its first half. *)
Definition short_request : Legacy.VerifyRequest :=
  {| Legacy.body_order_id := "order_1"; Legacy.body_payment_id := "pay_1";
     Legacy.body_signature := "44422d618d76e6e81c5f002f4d510838" |}.

Definition token_1 : Token :=
  token_for "order_1" "pay_1" Samples.captured 1700000001001.

(** The table after one token was stored. *)
Definition one_token : World :=
  mint (Crypto.hex Samples.bytes_1) token_1 Samples.fresh.

Definition bytes_2 : list Z :=
  [0xff; 0xee; 0xdd; 0xcc; 0xbb; 0xaa; 0x99; 0x88;
   0x77; 0x66; 0x55; 0x44; 0x33; 0x22; 0x11; 0x00].

Definition token_2 : Token :=
  {| tok_order_id := "order_2"; tok_payment_id := "pay_2";
     tok_amount := (inject_Z 99900 / 100)%Q;
     expires := 1700000002001 + 5 * 60 * 1000 |}.

(** A SUCCESS row for order_1 / pay_1, as [saveTransaction] builds it. *)
Definition row_1 : TransactionRow :=
  transaction_row 1690000000000 (success_data "order_1" "pay_1" Samples.captured).

(** A freshly started process whose ledger already holds that row. *)
Definition recorded : World :=
  Service.started {| transactions := [row_1]; verification_logs := [] |}.



(** The parameters of order_1 / pay_1 with the signature in the query
    string and the two ids in the body. *)
Definition callback_split : CallbackRequest :=
  {| req_body :=
       {| razorpay_payment_id := Some "pay_1"; razorpay_order_id := Some "order_1";
          razorpay_signature := None |};
     req_query :=
       {| razorpay_payment_id := None; razorpay_order_id := None;
          razorpay_signature := Some Samples.signature_1 |} |}.

End Cases.

(** ** Known answers for the [crypto] model *)

Module CryptoTests.
Import Crypto.

(** FIPS 180-4 example: one-block message. *)
Example sha256_abc :
  hex (sha256 (bytes_of "abc"))
  = "ba7816bf8f01cfea414140de5dae2223b00361a396177a9cb410ff61f20015ad"%string.
Proof. vm_compute. reflexivity. Qed.

Example sha256_empty :
  hex (sha256 [])
  = "e3b0c44298fc1c149afbf4c8996fb92427ae41e4649b934ca495991b7852b855"%string.
Proof. vm_compute. reflexivity. Qed.

(** FIPS 180-4 example: a message that needs two blocks. *)
Example sha256_two_blocks :
  hex (sha256 (bytes_of "abcdbcdecdefdefgefghfghighijhijkijkljklmklmnlmnomnopnopq"))
  = "248d6a61d20638b8e5c026930c3e6039a33ce45964ff2167f6ecedd419db06c1"%string.
Proof. vm_compute. reflexivity. Qed.

(** RFC 4231, test case 2. *)
Example hmac_rfc4231_2 :
  createHmac_sha256_hex "Jefe" "what do ya want for nothing?"
  = "5bdcc146bf60754e6a042426089575c75a003f089d2739839dec58b964ec3843"%string.
Proof. vm_compute. reflexivity. Qed.

(** RFC 4231, test case 6: a key longer than the block. *)
Example hmac_rfc4231_6 :
  hex (hmac_sha256 (repeat 0xaa 131)
         (bytes_of "Test Using Larger Than Block-Size Key - Hash Key First"))
  = "60e431591ee0b67f0d8a26aacbf5b77f8e0bc6213728c5140546040f0ee37f54"%string.
Proof. vm_compute. reflexivity. Qed.

End CryptoTests.

(** ** Signature check *)

Module SignatureFacts.
Import Js Server.

Lemma signatureMatched_iff secret order_id payment_id signature :
  signatureMatched secret order_id payment_id signature = true
  <-> signature = generated_signature secret order_id payment_id.
Proof.
  unfold signatureMatched. rewrite String.eqb_eq. split; congruence.
Qed.

(** The handler of the two earlier revisions answers "Signature
    mismatch" exactly when the signatures differ. *)
Lemma legacy_mismatch_iff env req file :
  fst (Legacy.verify_payment env req file)
    = json (Verdict false (Some "Signature mismatch") None)
  <-> Legacy.body_signature req
      <> generated_signature (Legacy.RAZORPAY_KEY_SECRET env)
           (Legacy.body_order_id req) (Legacy.body_payment_id req).
Proof.
  unfold Legacy.verify_payment.
  destruct (String.eqb_spec
              (generated_signature (Legacy.RAZORPAY_KEY_SECRET env)
                 (Legacy.body_order_id req) (Legacy.body_payment_id req))
              (Legacy.body_signature req)) as [He|Hne]; cbn [negb fst].
  - destruct (Legacy.razorpay_payment env _) as [data|err]; cbn [fst].
    + destruct (negb _); cbn [fst]; (split; [discriminate | congruence]).
    + split; [discriminate | congruence].
  - split; [intros _ | reflexivity]. congruence.
Qed.

(** C2. The check of every revision declares a match exactly when the
    received signature is the lower-case hex text of HMAC-SHA256, keyed
    with the secret, over [order_id + "|" + payment_id]; the handler of
    the two earlier revisions answers "Signature mismatch" exactly when
    it is not; for order_1 / pay_1 / s3cret the text is the digest shown;
    and the keyed hash gives the digest RFC 4231 prints for its second
    test case. *)
Theorem signature_is_hex_hmac_sha256 :
  (forall secret order_id payment_id signature,
      signatureMatched secret order_id payment_id signature = true
      <-> signature
          = Crypto.hex (Crypto.hmac_sha256 (Crypto.bytes_of secret)
                          (Crypto.bytes_of (order_id +:+ "|" +:+ payment_id))))
  /\ (forall env req file,
         fst (Legacy.verify_payment env req file)
           = json (Verdict false (Some "Signature mismatch") None)
         <-> Legacy.body_signature req
             <> Crypto.hex
                  (Crypto.hmac_sha256 (Crypto.bytes_of (Legacy.RAZORPAY_KEY_SECRET env))
                     (Crypto.bytes_of
                        (Legacy.body_order_id req +:+ "|" +:+ Legacy.body_payment_id req))))
  /\ generated_signature "s3cret" "order_1" "pay_1"
     = "44422d618d76e6e81c5f002f4d5108385750b52eb8db4e9c7a4231ddfac02840"%string
  /\ Crypto.createHmac_sha256_hex "Jefe" "what do ya want for nothing?"
     = "5bdcc146bf60754e6a042426089575c75a003f089d2739839dec58b964ec3843"%string.
Proof.
  split; [intros; apply signatureMatched_iff|].
  split; [intros; apply legacy_mismatch_iff|].
  split; vm_compute; reflexivity.
Qed.

End SignatureFacts.

(** ** What the undefined helper does to the handlers of [server.js] *)

Module Reach.
Import Js Server.

(** [saveTransaction] with status SUCCESS throws before it has sent
    anything. *)
Lemma saveTransaction_success delivered now data s :
  status data = "SUCCESS" ->
  saveTransaction delivered now data s
  = (Throw (ReferenceError "isPaymentAlreadyProcessed"), s).
Proof. intros Hst. unfold saveTransaction. by rewrite Hst. Qed.

(** With any other status it posts its row. *)
Lemma saveTransaction_other delivered now data s :
  status data <> "SUCCESS" ->
  saveTransaction delivered now data s
  = (Normal tt, logToGoogleSheet delivered (Transactions (transaction_row now data)) s).
Proof.
  intros Hst. unfold saveTransaction. apply String.eqb_neq in Hst. by rewrite Hst.
Qed.

(** [/verify_payment] throws before it has compared, logged or asked
    anything. *)
Lemma verify_payment_throws env req w :
  verify_payment env req w = (Throw (ReferenceError "isPaymentAlreadyProcessed"), w).
Proof. reflexivity. Qed.

Lemma callback_try_throws env order_id payment_id signature w :
  callback_try env order_id payment_id signature w
  = (Throw (ReferenceError "isPaymentAlreadyProcessed"), w).
Proof. reflexivity. Qed.

(** Taking the lock and giving it back leaves the set as it was. *)
Lemma lock_unlock (payment_id : string) (locks : gset string) :
  payment_id ∉ locks -> ({[payment_id]} ∪ locks) ∖ {[payment_id]} = locks.
Proof.
  intros Hfree. apply set_eq. intros x.
  rewrite elem_of_difference, elem_of_union, elem_of_singleton.
  split; [intros [[->|Hx] Hne]; done|].
  intros Hx. split; [by right|]. intros ->. done.
Qed.

(** The three ways out of the callback. *)
Lemma payment_callback_cases env req w :
  payment_callback env req w
  = (if missing_parameters req then status_send 400 "Missing parameters"
     else if decide (or_empty (payment_id_of req) ∈ processingPayments w)
          then status_send 409 "Duplicate request blocked"
          else status_send 500 "Server error",
     w).
Proof.
  unfold payment_callback. destruct (missing_parameters req); [reflexivity|].
  case_decide as Hlock; [reflexivity|]. cbv zeta. rewrite callback_try_throws.
  cbn [with_processing processingPayments sheets successTokens].
  rewrite (lock_unlock _ _ Hlock). by destruct w.
Qed.

Lemma payment_callback_world env req w : snd (payment_callback env req w) = w.
Proof. by rewrite payment_callback_cases. Qed.

Lemma payment_callback_answers env req w :
  fst (payment_callback env req w) = status_send 400 "Missing parameters"
  \/ fst (payment_callback env req w) = status_send 409 "Duplicate request blocked"
  \/ fst (payment_callback env req w) = status_send 500 "Server error".
Proof.
  rewrite payment_callback_cases. cbn [fst].
  destruct (missing_parameters req); [by left|]. case_decide; auto.
Qed.

(** A started process stays as it started: no request changes the
    sheets, leaves a lock behind or creates the token table. *)
Lemma handle_started r s : Service.handle r (Service.started s) = Service.started s.
Proof.
  destruct r as [env req|env req|now ref|]; cbn [Service.handle].
  - reflexivity.
  - apply payment_callback_world.
  - reflexivity.
  - reflexivity.
Qed.

Lemma run_started requests s :
  Service.run requests (Service.started s) = Service.started s.
Proof.
  unfold Service.run. induction requests as [|r rest IH]; [reflexivity|].
  cbn [fold_left]. by rewrite handle_started.
Qed.

End Reach.

(** ** The gateway's word decides *)

Module StatusFacts.
Import Js Server.

(** The two earlier revisions. *)
Lemma legacy_verify_not_captured env req file data :
  Legacy.razorpay_payment env (Legacy.body_payment_id req) = Resolved data ->
  pay_status data <> "captured" ->
  (exists reason,
      fst (Legacy.verify_payment env req file) = json (Verdict false (Some reason) None))
  /\ snd (Legacy.verify_payment env req file) = file.
Proof.
  intros Hgw Hst. unfold Legacy.verify_payment. rewrite Hgw.
  apply String.eqb_neq in Hst. rewrite Hst. cbn [negb].
  destruct (negb _); cbn [fst snd]; eauto.
Qed.

Lemma legacy_success_count_save data file order_id payment_id :
  Legacy.success_count (Legacy.saveTransaction data file) order_id payment_id
  = (Legacy.success_count file order_id payment_id
     + if Legacy.success_row order_id payment_id data then 1 else 0)%nat.
Proof.
  unfold Legacy.success_count, Legacy.saveTransaction.
  rewrite filter_app, length_app. f_equal.
  rewrite filter_cons, filter_nil.
  destruct (Legacy.success_row order_id payment_id data); case_decide; done.
Qed.

Lemma legacy_failed_not_success order_id payment_id (e : Legacy.Transaction) :
  Legacy.status e = "FAILED" -> Legacy.success_row order_id payment_id e = false.
Proof.
  intros He. unfold Legacy.success_row. rewrite He. by rewrite andb_false_r.
Qed.

Lemma legacy_count_failed file order_id payment_id (e : Legacy.Transaction) :
  Legacy.status e = "FAILED" ->
  Legacy.success_count (Legacy.saveTransaction e file) order_id payment_id
  = Legacy.success_count file order_id payment_id.
Proof.
  intros He. rewrite legacy_success_count_save, legacy_failed_not_success by assumption.
  lia.
Qed.

Lemma legacy_callback_not_captured env req file data :
  Legacy.razorpay_payment (Legacy.verify_env env) (or_empty (Legacy.payment_id_of req))
  = Resolved data ->
  pay_status data <> "captured" ->
  let r := Legacy.payment_callback env req file in
  body (fst r) <> Html "Payment Successful"
  /\ forall order_id payment_id,
      Legacy.success_count (snd r) order_id payment_id
      = Legacy.success_count file order_id payment_id.
Proof.
  intros Hgw Hst. unfold Legacy.payment_callback. cbv zeta.
  destruct (Legacy.missing_parameters req).
  { cbn [fst snd body status_page]. split; [discriminate|]. intros o p.
    by apply legacy_count_failed. }
  set (vreq := {| Legacy.body_order_id := _ |}).
  pose proof (legacy_verify_not_captured (Legacy.verify_env env) vreq file data Hgw Hst)
    as [[reason Hr] Hfile].
  unfold Legacy.post_verify_payment.
  destruct (Legacy.verify_link env); cbn zeta.
  - cbn [fst snd body status_page]. split; [discriminate|]. intros o p.
    by apply legacy_count_failed.
  - cbn [fst snd body status_page]. split; [discriminate|]. intros o p.
    rewrite legacy_count_failed by reflexivity. by rewrite Hfile.
  - destruct (Legacy.verify_payment (Legacy.verify_env env) vreq file) as [resp file1].
    cbn [fst snd] in *. subst resp file1.
    cbn [json code body Z.leb Z.ltb Z.compare Pos.compare Pos.compare_cont andb
         fst snd status_page].
    split; [discriminate|]. intros o p. by apply legacy_count_failed.
Qed.

(** In the two earlier revisions a matching signature is not enough.
    Whenever the gateway answers the inquiry with a status other than
    "captured", [/verify_payment] answers [valid = false] without
    touching the file, and the POST callback does not show the success
    page and adds no SUCCESS entry for any pair. *)
Theorem legacy_not_captured_is_rejected :
  (forall env req file data,
      Legacy.razorpay_payment env (Legacy.body_payment_id req) = Resolved data ->
      pay_status data <> "captured" ->
      (exists reason,
          fst (Legacy.verify_payment env req file)
          = json (Verdict false (Some reason) None))
      /\ snd (Legacy.verify_payment env req file) = file)
  /\ (forall env req file data,
         Legacy.razorpay_payment (Legacy.verify_env env)
           (or_empty (Legacy.payment_id_of req)) = Resolved data ->
         pay_status data <> "captured" ->
         let r := Legacy.payment_callback env req file in
         body (fst r) <> Html "Payment Successful"
         /\ forall order_id payment_id,
             Legacy.success_count (snd r) order_id payment_id
             = Legacy.success_count file order_id payment_id).
Proof.
  split; [exact legacy_verify_not_captured | exact legacy_callback_not_captured].
Qed.

(** The theorem at work: a correctly signed request for a payment that
    is only authorized, through the two handlers. *)
Lemma legacy_not_captured_is_rejected_witness :
  snd (Legacy.verify_payment (Samples.legacy_env_of (Resolved Samples.authorized))
         Samples.legacy_request_1 None) = None
  /\ Legacy.success_count
       (snd (Legacy.payment_callback
               (Samples.legacy_cb_env_of Answered (Resolved Samples.authorized))
               Samples.legacy_callback_1 None)) "order_1" "pay_1" = 0%nat.
Proof.
  destruct legacy_not_captured_is_rejected as (Hlv & Hlc).
  assert (Hne : pay_status Samples.authorized <> "captured") by discriminate.
  split.
  - apply (Hlv (Samples.legacy_env_of (Resolved Samples.authorized))
             Samples.legacy_request_1 None Samples.authorized eq_refl Hne).
  - destruct (Hlc (Samples.legacy_cb_env_of Answered (Resolved Samples.authorized))
                Samples.legacy_callback_1 None Samples.authorized eq_refl Hne) as [_ H].
    rewrite H. reflexivity.
Defined.

(** C3, at its failing input.  A correctly signed [/verify_payment]
    request for a payment that the gateway reports as authorized, on a
    freshly started process: the handler throws at its first call, so it
    gives no verdict, where the claim has [valid = false]; it never asks
    the gateway and writes nothing.  The same holds of every request. *)
Theorem not_captured_gets_no_verdict :
  signatureMatched "s3cret" "order_1" "pay_1" Samples.signature_1 = true
  /\ pay_status Samples.authorized <> "captured"
  /\ verify_payment (Samples.env_of (Resolved Samples.authorized) true)
       Samples.request_1 Samples.fresh
     = (Throw (ReferenceError "isPaymentAlreadyProcessed"), Samples.fresh)
  /\ forall env req w,
       verify_payment env req w
       = (Throw (ReferenceError "isPaymentAlreadyProcessed"), w).
Proof.
  split; [vm_compute; reflexivity|]. split; [discriminate|].
  split; [reflexivity|]. intros. apply Reach.verify_payment_throws.
Qed.

End StatusFacts.

(** ** A failed inquiry and the retry *)

Module RetryFacts.
Import Js Server.

(** C4, at its failing input.  The verification of order_1 / pay_1 is
    sent while the gateway is down and again when it reports the payment
    as captured.  Both times the handler throws before it reaches the
    inquiry: there is no verdict that tells an upstream failure from any
    other end, and the retry does not succeed; the callback with the
    same parameters answers 500 both times.  No request is ever answered
    [valid: true] or redirected. *)
Theorem failed_inquiry_is_not_retried :
  let down := Samples.env_of (Rejected "connect ETIMEDOUT") true in
  let up := Samples.env_of (Resolved Samples.captured) true in
  let cb := Samples.cb_env_of (Resolved (Verdict true None (Some Samples.captured))) true in
  let first := verify_payment down Samples.request_1 Samples.fresh in
  let retry := verify_payment up Samples.request_1 (snd first) in
  fst first = Throw (ReferenceError "isPaymentAlreadyProcessed")
  /\ fst retry = Throw (ReferenceError "isPaymentAlreadyProcessed")
  /\ fst (payment_callback cb Samples.callback_1 (snd retry))
     = status_send 500 "Server error"
  /\ (forall env req w resp, fst (verify_payment env req w) <> Normal resp)
  /\ (forall env req w url, fst (payment_callback env req w) <> redirect 302 url).
Proof.
  cbv zeta. split; [reflexivity|]. split; [reflexivity|].
  split; [vm_compute; reflexivity|]. split.
  - intros env req w resp. rewrite Reach.verify_payment_throws. discriminate.
  - intros env req w url.
    destruct (Reach.payment_callback_answers env req w) as [-> | [-> | ->]]; discriminate.
Qed.

End RetryFacts.

(** ** Already processed *)

Module DuplicateFacts.
Import Js Server.

(** C7, at its failing input.  The ledger holds a SUCCESS row for
    order_1 / pay_1 and the pair is sent again.  [/verify_payment] throws
    and gives no verdict, where the claim has "Payment already
    processed"; the callback answers 500 "Server error", where the claim
    has 409; the lock the callback took is released and nothing else has
    changed. *)
Theorem processed_pair_is_not_reported_duplicate :
  success_count (sheets Cases.recorded) "order_1" "pay_1" = 1%nat
  /\ verify_payment (Samples.env_of (Resolved Samples.captured) true)
       Samples.request_1 Cases.recorded
     = (Throw (ReferenceError "isPaymentAlreadyProcessed"), Cases.recorded)
  /\ payment_callback
       (Samples.cb_env_of (Resolved (Verdict true None (Some Samples.captured))) true)
       Samples.callback_1 Cases.recorded
     = (status_send 500 "Server error", Cases.recorded).
Proof.
  split; [vm_compute; reflexivity|]. split; [reflexivity|].
  rewrite Reach.payment_callback_cases. vm_compute. reflexivity.
Qed.

End DuplicateFacts.

(** ** The audit trail *)

Module AuditFacts.
Import Js Server.




End AuditFacts.

(** ** Success and the commit *)

Module CommitFacts.
Import Js Server.

(** C6. No request is answered with success: [/verify_payment] throws
    before it gives a verdict, and whatever the request and whatever the
    deployed service, the sheet, the clock and the random source do, the
    callback answers 400, 409 or 500, never the success redirect, and
    leaves the state, the token table included, as it was.  The commit the
    callback would await, [saveTransaction] with the SUCCESS object of
    lines 473-480, throws before it has sent anything. *)
Theorem no_success_without_commit env req venv vreq w payment delivered now s :
  let r := payment_callback env req w in
  (forall url, fst r <> redirect 302 url)
  /\ (fst r = status_send 400 "Missing parameters"
      \/ fst r = status_send 409 "Duplicate request blocked"
      \/ fst r = status_send 500 "Server error")
  /\ snd r = w
  /\ verify_payment venv vreq w
     = (Throw (ReferenceError "isPaymentAlreadyProcessed"), w)
  /\ saveTransaction delivered now
       (success_data (or_empty (order_id_of req)) (or_empty (payment_id_of req)) payment) s
     = (Throw (ReferenceError "isPaymentAlreadyProcessed"), s).
Proof.
  cbv zeta. pose proof (Reach.payment_callback_answers env req w) as Ha.
  split; [|split; [exact Ha|split; [|split]]].
  - intros url. destruct Ha as [-> | [-> | ->]]; discriminate.
  - apply Reach.payment_callback_world.
  - apply Reach.verify_payment_throws.
  - by apply Reach.saveTransaction_success.
Qed.

End CommitFacts.

(** ** The success token *)

Module TokenFacts.
Import Js Server.

Lemma hex_digit_is_hex d : Crypto.is_hex_char (Crypto.hex_digit d) = true.
Proof.
  unfold Crypto.hex_digit.
  destruct (Z.to_nat d) as [|n]; [reflexivity|].
  do 15 (destruct n as [|n]; [reflexivity|]).
  cbn. by destruct n.
Qed.

(** A token made by [toString('hex')] is never the name of an inherited
    property. *)
Lemma hex_not_inherited bytes : inherited (Crypto.hex bytes) = false.
Proof.
  destruct bytes as [|b r]; [reflexivity|].
  destruct (inherited (Crypto.hex (b :: r))) eqn:E; [exfalso|reflexivity].
  pose proof (hex_digit_is_hex (b / 16)) as H1.
  pose proof (hex_digit_is_hex (b mod 16)) as H2.
  unfold inherited, Object_prototype in E. cbn [existsb Crypto.hex] in E.
  repeat (apply orb_true_iff in E; destruct E as [E|E]); try discriminate E;
    apply String.eqb_eq in E; injection E as E1 E2 _;
    rewrite ?E1 in H1; rewrite ?E2 in H2; vm_compute in H1, H2; discriminate.
Qed.

Lemma get_own {A} (obj : gmap string A) k a : obj !! k = Some a -> get obj k = Own a.
Proof. intros H. unfold get. by rewrite H. Qed.

Lemma get_deleted_hex {A} (obj : gmap string A) bytes :
  get (delete (Crypto.hex bytes) obj) (Crypto.hex bytes) = Undefined.
Proof. unfold get. by rewrite lookup_delete_eq, hex_not_inherited. Qed.

Lemma truthy_hex bytes : bytes <> [] -> truthy (Some (Crypto.hex bytes)) = true.
Proof. destruct bytes; [done|]. reflexivity. Qed.

(** Redeeming a stored token. *)
Lemma redeem_stored bytes tokens t w now :
  bytes <> [] ->
  successTokens w = Some tokens ->
  tokens !! Crypto.hex bytes = Some t ->
  let ref := Some (Crypto.hex bytes) in
  let r := validate_success now ref w in
  snd r = with_tokens (Some (delete (Crypto.hex bytes) tokens)) w
  /\ (now <= expires t ->
      fst r = json (Confirmed (Some (tok_order_id t)) (Some (tok_payment_id t))
                      (Some (tok_amount t))))
  /\ (expires t < now -> fst r = forbidden)
  /\ forall later, validate_success later ref (snd r) = (forbidden, snd r).
Proof.
  intros Hne Hs Hk ref r.
  assert (Hr : r = (if now >? expires t then forbidden
                    else json (Confirmed (Some (tok_order_id t)) (Some (tok_payment_id t))
                                 (Some (tok_amount t))),
                    with_tokens (Some (delete (Crypto.hex bytes) tokens)) w)).
  { subst r ref. unfold validate_success.
    rewrite Hs, (truthy_hex _ Hne). cbn [or_empty]. rewrite (get_own _ _ _ Hk).
    by destruct (now >? expires t). }
  rewrite Hr. cbn [fst snd]. split; [reflexivity|]. split; [|split].
  - intros Hle. destruct (Z.gtb_spec now (expires t)); [lia | reflexivity].
  - intros Hlt. destruct (Z.gtb_spec now (expires t)); [reflexivity | lia].
  - intros later. subst ref. unfold validate_success.
    cbn [with_tokens successTokens]. rewrite (truthy_hex _ Hne). cbn [or_empty].
    by rewrite get_deleted_hex.
Qed.

(** A token stored by lines 485-492 lives five minutes. *)
Lemma redeem_minted bytes order_id payment_id payment minted later w :
  bytes <> [] ->
  let w1 :=
    mint (Crypto.hex bytes) (token_for order_id payment_id payment minted) w in
  let r := validate_success later (Some (Crypto.hex bytes)) w1 in
  (later <= minted + 5 * 60 * 1000 ->
   fst r = json (Confirmed (Some order_id) (Some payment_id)
                   (Some (inject_Z (pay_amount payment) / 100)%Q)))
  /\ (minted + 5 * 60 * 1000 < later -> fst r = forbidden)
  /\ forall again, validate_success again (Some (Crypto.hex bytes)) (snd r)
                   = (forbidden, snd r).
Proof.
  intros Hne w1 r.
  destruct (redeem_stored bytes
              (<[Crypto.hex bytes := token_for order_id payment_id payment minted]>
                 (default ∅ (successTokens w)))
              (token_for order_id payment_id payment minted) w1 later Hne eq_refl
              (lookup_insert_eq _ _ _)) as (_ & Hok & Hexp & Hagain).
  fold r in Hok, Hexp, Hagain. by repeat split.
Qed.

(** C9. Redeeming a stored token removes it from the table whatever the
    clock says, returns its three fields when the clock is not past the
    expiry and 403 when it is, and every later redemption of the same
    token returns 403 and changes nothing.  The expiry that lines 485-492
    store is five minutes after the clock reading: a token stored by them
    is redeemed once up to that instant and refused after it. *)
Theorem token_is_single_use :
  (forall bytes tokens t w now,
      bytes <> [] ->
      successTokens w = Some tokens ->
      tokens !! Crypto.hex bytes = Some t ->
      let ref := Some (Crypto.hex bytes) in
      let r := validate_success now ref w in
      snd r = with_tokens (Some (delete (Crypto.hex bytes) tokens)) w
      /\ (now <= expires t ->
          fst r = json (Confirmed (Some (tok_order_id t)) (Some (tok_payment_id t))
                          (Some (tok_amount t))))
      /\ (expires t < now -> fst r = forbidden)
      /\ forall later, validate_success later ref (snd r) = (forbidden, snd r))
  /\ (forall bytes order_id payment_id payment minted later w,
         bytes <> [] ->
         let w1 :=
           mint (Crypto.hex bytes) (token_for order_id payment_id payment minted) w in
         let r := validate_success later (Some (Crypto.hex bytes)) w1 in
         (later <= minted + 5 * 60 * 1000 ->
          fst r = json (Confirmed (Some order_id) (Some payment_id)
                          (Some (inject_Z (pay_amount payment) / 100)%Q)))
         /\ (minted + 5 * 60 * 1000 < later -> fst r = forbidden)
         /\ forall again, validate_success again (Some (Crypto.hex bytes)) (snd r)
                          = (forbidden, snd r)).
Proof.
  split; [exact redeem_stored | exact redeem_minted].
Qed.

(** The theorem at work on the table that holds the token of order_1 /
    pay_1, stored at 1700000001001: redeemed in time and again, and
    redeemed too late and again. *)
Lemma token_is_single_use_witness :
  let ref := Some "00112233445566778899aabbccddeeff" in
  let in_time := validate_success 1700000100000 ref Cases.one_token in
  let too_late := validate_success 1700000400000 ref Cases.one_token in
  fst in_time = json (Confirmed (Some "order_1") (Some "pay_1")
                        (Some (inject_Z 49900 / 100)%Q))
  /\ fst (validate_success 1700000100001 ref (snd in_time)) = forbidden
  /\ fst too_late = forbidden
  /\ fst (validate_success 1700000400001 ref (snd too_late)) = forbidden.
Proof.
  intros ref in_time too_late.
  destruct token_is_single_use as [Hstored Hminted].
  destruct (Hstored Samples.bytes_1 _ Cases.token_1 Cases.one_token 1700000100000
              ltac:(discriminate) eq_refl (lookup_insert_eq _ _ _))
    as (_ & Hok & _ & Hagain).
  destruct (Hminted Samples.bytes_1 "order_1" "pay_1" Samples.captured 1700000001001
              1700000400000 Samples.fresh ltac:(discriminate)) as (_ & Hexp & Hagain').
  split; [apply Hok; vm_compute; discriminate|].
  split; [exact (f_equal fst (Hagain 1700000100001))|].
  split; [apply Hexp; reflexivity|].
  exact (f_equal fst (Hagain' 1700000400001)).
Defined.

(** C10. In the running service the token table is never created, so a
    redemption finds nothing: after any requests, in any order, from the
    start of the process, every reference is answered 403 and the state
    is left as it was.  For a handler run on any state, the same holds
    when the reference is absent or empty and when the table does not
    exist. *)
Theorem missing_token_is_refused :
  (forall requests s now ref,
      let w := Service.run requests (Service.started s) in
      successTokens w = None /\ validate_success now ref w = (forbidden, w))
  /\ (forall now w,
         validate_success now None w = (forbidden, w)
         /\ validate_success now (Some "") w = (forbidden, w))
  /\ (forall now ref w,
         successTokens w = None -> validate_success now ref w = (forbidden, w)).
Proof.
  split; [|split].
  - intros requests s now ref. cbv zeta. rewrite Reach.run_started. split; reflexivity.
  - intros now w. unfold validate_success. by destruct (successTokens w).
  - intros now ref w Hs. unfold validate_success. by rewrite Hs.
Qed.

(** The theorem at work: a verification, two callbacks and a redemption
    have been handled; then a reference that is the name of an inherited
    property is sent. *)
Lemma missing_token_is_refused_witness :
  let w :=
    Service.run
      [ Service.VerifyPayment (Samples.env_of (Resolved Samples.captured) true)
          Samples.request_1;
        Service.PaymentCallback
          (Samples.cb_env_of (Resolved (Verdict true None (Some Samples.captured))) true)
          Samples.callback_1;
        Service.PaymentCallback
          (Samples.cb_env_of (Resolved (Verdict true None (Some Samples.captured))) true)
          Samples.callback_1;
        Service.ValidateSuccess 1700000100000
          (Some "00112233445566778899aabbccddeeff") ]
      (Service.started Samples.no_sheets) in
  validate_success 1700000100001 (Some "constructor") w = (forbidden, w)
  /\ validate_success 1700000100001 (Some "constructor") Samples.fresh
     = (forbidden, Samples.fresh).
Proof.
  intros w. destruct missing_token_is_refused as (Hrun & _ & Hnone). split.
  - apply (Hrun _ Samples.no_sheets 1700000100001 (Some "constructor")).
  - apply Hnone. reflexivity.
Defined.

(** Redeeming what is not there, for every reference that is not the
    name of an inherited property: 403, and nothing changes. *)
Lemma redeem_missing now ref w :
  ref = None
  \/ ref = Some ""
  \/ successTokens w = None
  \/ (exists tokens k,
         ref = Some k /\ successTokens w = Some tokens
         /\ tokens !! k = None /\ inherited k = false) ->
  validate_success now ref w = (forbidden, w).
Proof.
  unfold validate_success.
  intros [-> | [-> | [-> | (tokens & k & -> & -> & Hk & Hi)]]].
  - by destruct (successTokens w).
  - by destruct (successTokens w).
  - reflexivity.
  - destruct (truthy (Some k)); [|reflexivity]. cbn [or_empty].
    unfold get. by rewrite Hk, Hi.
Qed.

(** The lemma at work: a redemption before any token was minted. *)
Lemma redeem_missing_witness :
  validate_success 1700000100000 (Some "0123456789abcdef0123456789abcdef") Samples.fresh
  = (forbidden, Samples.fresh).
Proof. apply redeem_missing. right. right. left. reflexivity. Defined.

End TokenFacts.

(** ** The gate *)

Module GateFacts.
Import Js Server.




End GateFacts.

(** ** One SUCCESS row per pair *)

Module LedgerFacts.
Import Js Server.

(** C1, as stated, fails.  The [saveTransaction] of the two earlier
    revisions appends a SUCCESS entry to a file that already holds one for
    the pair, and a single callback of the later one leaves two of them. *)
Lemma success_rows_can_repeat :
  Legacy.saveTransaction Samples.legacy_success (Some [Samples.legacy_success])
  = Some [Samples.legacy_success; Samples.legacy_success]
  /\ Legacy.success_count
       (Legacy.saveTransaction Samples.legacy_success (Some [Samples.legacy_success]))
       "order_1" "pay_1" = 2%nat
  /\ Legacy.success_count
       (snd (Legacy.payment_callback
               (Samples.legacy_cb_env_of Answered (Resolved Samples.captured))
               Samples.legacy_callback_1 None))
       "order_1" "pay_1" = 2%nat.
Proof.
  split; [reflexivity|]. split; vm_compute; reflexivity.
Qed.

(** C1, amended to the current service.  A [saveTransaction] call with
    status SUCCESS leaves the ledger as it was, whether or not the ledger
    holds a SUCCESS row for the pair; a callback leaves it as it was; and
    after any requests, in any order, from the start of the process the
    ledger is the one the process started with, so a pair that had at
    most one SUCCESS row has at most one. *)
Theorem one_success_row_per_pair :
  (forall delivered now data s,
      status data = "SUCCESS" ->
      snd (saveTransaction delivered now data s) = s)
  /\ (forall env req w, sheets (snd (payment_callback env req w)) = sheets w)
  /\ (forall requests s,
         sheets (Service.run requests (Service.started s)) = s)
  /\ (forall requests s,
         (forall order_id payment_id, (success_count s order_id payment_id <= 1)%nat) ->
         forall order_id payment_id,
           (success_count (sheets (Service.run requests (Service.started s)))
              order_id payment_id <= 1)%nat).
Proof.
  split; [|split; [|split]].
  - intros delivered now data s Hst. by rewrite Reach.saveTransaction_success.
  - intros env req w. by rewrite Reach.payment_callback_world.
  - intros requests s. by rewrite Reach.run_started.
  - intros requests s Hone o p. rewrite Reach.run_started. apply Hone.
Qed.

(** The theorem at work: the SUCCESS object of order_1 / pay_1 is saved
    on a ledger that holds its row, and the callback is delivered three
    times to a process that started with that ledger. *)
Lemma one_success_row_per_pair_witness :
  snd (saveTransaction true 1700000009000
         (success_data "order_1" "pay_1" Samples.captured) (sheets Cases.recorded))
  = sheets Cases.recorded
  /\ (success_count
        (sheets
           (Service.run
              (repeat
                 (Service.PaymentCallback
                    (Samples.cb_env_of
                       (Resolved (Verdict true None (Some Samples.captured))) true)
                    Samples.callback_1) 3)
              (Service.started (sheets Cases.recorded))))
        "order_1" "pay_1" <= 1)%nat.
Proof.
  destruct one_success_row_per_pair as (Hnoop & _ & _ & Hone).
  split.
  - apply Hnoop. reflexivity.
  - apply Hone. intros o p. unfold success_count.
    etransitivity; [apply length_filter|]. cbn. lia.
Defined.

End LedgerFacts.

(** ** The service keeps its state *)

Module RepeatFacts.
Import Js Server.


(** A started process stays as it started: after any requests to the
    three routes, in any order, with restarts in between or not, the
    sheets are those it started with, no payment id is locked and the
    token table does not exist. *)
Theorem service_keeps_its_state requests s :
  let w := Service.run requests (Service.started s) in
  sheets w = s /\ processingPayments w = ∅ /\ successTokens w = None.
Proof.
  cbv zeta.
  assert (H : Service.run requests (Service.started s) = Service.started s).
  { unfold Service.run. induction requests as [|r rest IH]; [reflexivity|].
    cbn [fold_left]. by rewrite Reach.handle_started. }
  rewrite H. by repeat split.
Qed.

End RepeatFacts.

(** ** The shape of the digest *)

Module DigestFacts.
Import Crypto Octet.

Lemma be_bytes_length n x : length (be_bytes n x) = n.
Proof. induction n as [|n IH]; cbn; [reflexivity | by rewrite IH]. Qed.

Lemma be_bytes_range n x : Forall byte (be_bytes n x).
Proof.
  induction n as [|n IH]; cbn [be_bytes]; constructor; [|exact IH].
  unfold byte. apply Z.mod_pos_bound. lia.
Qed.

Lemma round_length v kw : length (round v kw) = length v.
Proof.
  destruct v as [|a [|b [|c [|d [|e [|f [|g [|h [|i r]]]]]]]]]; reflexivity.
Qed.

Lemma rounds_length l v : length (fold_left round l v) = length v.
Proof.
  revert v. induction l as [|kw l IH]; intros v; cbn; [reflexivity|].
  by rewrite IH, round_length.
Qed.

Lemma compress_length H block : length (compress H block) = length H.
Proof.
  unfold compress. rewrite length_map, length_combine, rounds_length. lia.
Qed.

Lemma compress_all_length blocks H : length (fold_left compress blocks H) = length H.
Proof.
  revert H. induction blocks as [|b l IH]; intros H; cbn; [reflexivity|].
  by rewrite IH, compress_length.
Qed.

Lemma words_bytes_length (ws : list Z) : length (flat_map (be_bytes 4) ws) = (4 * length ws)%nat.
Proof.
  induction ws as [|w ws IH]; [reflexivity|].
  cbn [flat_map]. rewrite length_app, be_bytes_length, IH. cbn [length]. lia.
Qed.

Lemma words_bytes_range (ws : list Z) : Forall byte (flat_map (be_bytes 4) ws).
Proof.
  induction ws as [|w ws IH]; [constructor|].
  cbn [flat_map]. apply Forall_app. split; [apply be_bytes_range | exact IH].
Qed.

(** The digest is 32 bytes, whatever the message. *)
Lemma sha256_length msg : length (sha256 msg) = 32%nat.
Proof.
  unfold sha256. cbv zeta. rewrite words_bytes_length, compress_all_length. reflexivity.
Qed.

Lemma sha256_range msg : Forall byte (sha256 msg).
Proof. apply words_bytes_range. Qed.

Lemma hex_length bs : String.length (hex bs) = (2 * length bs)%nat.
Proof. induction bs as [|b r IH]; cbn [hex String.length length]; [reflexivity | lia]. Qed.

Lemma hex_chars bs : hex_text (hex bs) = true.
Proof.
  unfold hex_text. induction bs as [|b r IH]; [reflexivity|].
  cbn [hex list_ascii_of_string forallb].
  by rewrite !TokenFacts.hex_digit_is_hex, IH.
Qed.

Lemma hex_value_digit d : 0 <= d < 16 -> hex_value (hex_digit d) = Some d.
Proof.
  intros Hd.
  assert (H : d = 0 \/ d = 1 \/ d = 2 \/ d = 3 \/ d = 4 \/ d = 5 \/ d = 6 \/ d = 7
              \/ d = 8 \/ d = 9 \/ d = 10 \/ d = 11 \/ d = 12 \/ d = 13 \/ d = 14 \/ d = 15)
    by lia.
  repeat (destruct H as [->|H]; [reflexivity|]). by subst d.
Qed.

(** [toString('hex')] loses nothing: two buffers with the same text are
    the same buffer. *)
Lemma hex_inj bs bs' : Forall byte bs -> Forall byte bs' -> hex bs = hex bs' -> bs = bs'.
Proof.
  intros Hbs. revert bs'. induction Hbs as [|b r Hb Hr IH]; intros bs' Hbs' He.
  - by destruct bs'.
  - destruct Hbs' as [|b' r' Hb' Hr']; [discriminate He|].
    cbn [hex] in He. injection He as Hhi Hlo Hrest.
    unfold byte in Hb, Hb'.
    assert (Hq : b / 16 = b' / 16).
    { apply (f_equal hex_value) in Hhi.
      rewrite !hex_value_digit in Hhi; [congruence| |];
        (split; [apply Z.div_pos; lia | apply Z.div_lt_upper_bound; lia]). }
    assert (Hm : b mod 16 = b' mod 16).
    { apply (f_equal hex_value) in Hlo.
      rewrite !hex_value_digit in Hlo; [congruence| |]; apply Z.mod_pos_bound; lia. }
    f_equal; [|by apply IH].
    rewrite (Z.div_mod b 16), (Z.div_mod b' 16) by lia. congruence.
Qed.

End DigestFacts.

(** ** The shape of a signature *)

Module FormatFacts.
Import Js Server Octet DigestFacts.

Lemma generated_signature_length secret order_id payment_id :
  String.length (generated_signature secret order_id payment_id) = 64%nat.
Proof.
  unfold generated_signature, Crypto.createHmac_sha256_hex, Crypto.hmac_sha256.
  cbv zeta. by rewrite hex_length, sha256_length.
Qed.

Lemma generated_signature_hex secret order_id payment_id :
  hex_text (generated_signature secret order_id payment_id) = true.
Proof. apply hex_chars. Qed.

Lemma malformed_mismatch secret order_id payment_id signature :
  String.length signature <> 64%nat \/ hex_text signature = false ->
  signature <> generated_signature secret order_id payment_id.
Proof.
  intros [Hl|Hh] ->.
  - by rewrite generated_signature_length in Hl.
  - by rewrite generated_signature_hex in Hh.
Qed.

(** Whatever the secret, the order id and the payment id, the
    signature the service computes is a text of exactly 64 lower-case
    hexadecimal digits, the text of a digest of 32 bytes. *)
Theorem generated_signature_is_64_hex_digits secret order_id payment_id :
  String.length (generated_signature secret order_id payment_id) = 64%nat
  /\ hex_text (generated_signature secret order_id payment_id) = true
  /\ exists digest,
       length digest = 32%nat /\ Forall byte digest
       /\ generated_signature secret order_id payment_id = Crypto.hex digest.
Proof.
  split; [apply generated_signature_length|]. split; [apply generated_signature_hex|].
  eexists. split; [|split; [|reflexivity]]; [apply sha256_length | apply sha256_range].
Qed.

(** In the two earlier revisions a received signature that is not 64
    lower-case hexadecimal digits is never accepted: [/verify_payment]
    answers "Signature mismatch" and leaves the file as it was, whatever
    the gateway would say of the payment. *)
Theorem malformed_signature_is_rejected env req file :
  String.length (Legacy.body_signature req) <> 64%nat
  \/ hex_text (Legacy.body_signature req) = false ->
  Legacy.verify_payment env req file
  = (json (Verdict false (Some "Signature mismatch") None), file).
Proof.
  intros Hbad.
  apply (malformed_mismatch (Legacy.RAZORPAY_KEY_SECRET env) (Legacy.body_order_id req)
           (Legacy.body_payment_id req)) in Hbad.
  unfold Legacy.verify_payment.
  destruct (String.eqb_spec
              (generated_signature (Legacy.RAZORPAY_KEY_SECRET env)
                 (Legacy.body_order_id req) (Legacy.body_payment_id req))
              (Legacy.body_signature req)) as [He|Hne]; [by symmetry in He|].
  reflexivity.
Qed.

Lemma append_assoc (a b c : string) : (a +:+ b) +:+ c = a +:+ (b +:+ c).
Proof.
  induction a as [|x a IH]; [reflexivity|].
  change (String x ((a +:+ b) +:+ c) = String x (a +:+ (b +:+ c))). by rewrite IH.
Qed.

(** The signed text is the two ids joined by a bar, so the signature
    does not tell where the order id ends: what is accepted for the
    order [a|b] with payment [c] is accepted for the order [a] with
    payment [b|c], and the other way round. *)
Theorem signature_covers_the_joined_text secret a b c signature :
  generated_signature secret (a +:+ "|" +:+ b) c
  = generated_signature secret a (b +:+ "|" +:+ c)
  /\ signatureMatched secret (a +:+ "|" +:+ b) c signature
     = signatureMatched secret a (b +:+ "|" +:+ c) signature.
Proof.
  assert (H : generated_signature secret (a +:+ "|" +:+ b) c
              = generated_signature secret a (b +:+ "|" +:+ c)).
  { unfold generated_signature. by rewrite !append_assoc. }
  split; [exact H|]. unfold signatureMatched. by rewrite H.
Qed.

(** The theorem at work: the signature of order_1 / pay_1 in upper case,
    and one cut short. *)
Lemma malformed_signature_is_rejected_witness :
  Legacy.verify_payment (Samples.legacy_env_of (Resolved Samples.captured))
    Cases.upper_request None
  = (json (Verdict false (Some "Signature mismatch") None), None)
  /\ Legacy.verify_payment (Samples.legacy_env_of (Resolved Samples.captured))
       Cases.short_request None
     = (json (Verdict false (Some "Signature mismatch") None), None).
Proof.
  split; apply malformed_signature_is_rejected.
  - right. reflexivity.
  - left. intros E. vm_compute in E. by injection E.
Defined.

End FormatFacts.

(** ** The token table *)

Module TableFacts.
Import Js Server Octet DigestFacts.

(** Redemption reads and writes the token table only, of the table at
    most the entry the reference names, and answers 403 or a
    confirmation. *)
Theorem redeem_touches_one_entry now ref w :
  let r := validate_success now ref w in
  sheets (snd r) = sheets w
  /\ processingPayments (snd r) = processingPayments w
  /\ (successTokens (snd r) = successTokens w
      \/ exists k tokens,
           ref = Some k /\ k <> "" /\ successTokens w = Some tokens
           /\ successTokens (snd r) = Some (delete k tokens))
  /\ (fst r = forbidden
      \/ exists order_id payment_id amount,
           fst r = json (Confirmed order_id payment_id amount)).
Proof.
  intros r.
  assert (Hcases :
            r = (forbidden, w)
            \/ exists k tokens resp,
                 ref = Some k /\ k <> "" /\ successTokens w = Some tokens
                 /\ r = (resp, with_tokens (Some (delete k tokens)) w)
                 /\ (resp = forbidden
                     \/ exists order_id payment_id amount,
                          resp = json (Confirmed order_id payment_id amount))).
  { subst r. unfold validate_success.
    destruct (successTokens w) as [tokens|]; [|by left].
    destruct ref as [k|]; cbn [truthy or_empty]; [|by left].
    destruct (String.eqb_spec k "") as [->|Hk]; cbn [negb]; [by left|].
    destruct (get tokens k) as [data| |]; [| |by left]; right; exists k, tokens.
    - destruct (now >? expires data); eexists; (do 4 (split; [done|]));
        [by left | right; by eexists _, _, _].
    - eexists. do 4 (split; [done|]). right. by eexists _, _, _. }
  destruct Hcases as [-> | (k & tokens & resp & -> & Hk & Hs & -> & Hresp)];
    cbn [fst snd with_tokens sheets processingPayments successTokens].
  - auto.
  - split; [reflexivity|]. split; [reflexivity|]. split; [|exact Hresp].
    right. by exists k, tokens.
Qed.

(** A confirmation that names an order comes from a stored token that
    had not expired: the three fields are the token's. *)
Theorem confirmed_fields_are_a_token now ref w order_id payment_id amount :
  fst (validate_success now ref w) = json (Confirmed (Some order_id) payment_id amount) ->
  exists k tokens t,
    ref = Some k /\ successTokens w = Some tokens /\ tokens !! k = Some t
    /\ now <= expires t
    /\ order_id = tok_order_id t /\ payment_id = Some (tok_payment_id t)
    /\ amount = Some (tok_amount t).
Proof.
  unfold validate_success.
  destruct (successTokens w) as [tokens|]; [|discriminate].
  destruct ref as [k|]; cbn [truthy or_empty]; [|discriminate].
  destruct (negb (String.eqb k "")); [|discriminate].
  unfold get. destruct (tokens !! k) as [t|] eqn:Hk.
  - destruct (Z.gtb_spec now (expires t)); cbn [fst]; [discriminate|].
    intros [= Ho Hp Ha]. exists k, tokens, t. repeat split; [assumption | lia | done ..].
  - destruct (inherited k); discriminate.
Qed.

Lemma confirmed_fields_are_a_token_witness :
  exists k tokens t,
    Some "00112233445566778899aabbccddeeff" = Some k
    /\ successTokens Cases.one_token = Some tokens /\ tokens !! k = Some t
    /\ 1700000100000 <= expires t
    /\ "order_1" = tok_order_id t /\ Some "pay_1" = Some (tok_payment_id t)
    /\ Some (inject_Z 49900 / 100)%Q = Some (tok_amount t).
Proof.
  apply (confirmed_fields_are_a_token 1700000100000
           (Some "00112233445566778899aabbccddeeff") Cases.one_token).
  vm_compute. reflexivity.
Defined.

Lemma mint_stores token t w :
  successTokens (mint token t w) = Some (<[token := t]> (default ∅ (successTokens w))).
Proof. reflexivity. Qed.

(** Two callbacks that draw different bytes store two tokens: redeeming
    the first, in time or not, leaves the second to be redeemed with its
    own fields.  Were the same bytes drawn twice, the second entry would
    replace the first. *)
Theorem distinct_bytes_distinct_tokens bytes bytes' t t' w now now' :
  Forall byte bytes -> Forall byte bytes' -> bytes <> [] -> bytes' <> [] ->
  bytes <> bytes' -> now' <= expires t' ->
  let w2 := mint (Crypto.hex bytes') t' (mint (Crypto.hex bytes) t w) in
  let first := validate_success now (Some (Crypto.hex bytes)) w2 in
  (fst first = forbidden <-> expires t < now)
  /\ fst (validate_success now' (Some (Crypto.hex bytes')) (snd first))
     = json (Confirmed (Some (tok_order_id t')) (Some (tok_payment_id t'))
               (Some (tok_amount t')))
  /\ mint (Crypto.hex bytes) t' (mint (Crypto.hex bytes) t w) = mint (Crypto.hex bytes) t' w.
Proof.
  intros Hb Hb' Hne Hne' Hdiff Hlive w2 first.
  assert (Hk : Crypto.hex bytes <> Crypto.hex bytes').
  { intros E. by apply Hdiff, hex_inj. }
  assert (Hs2 : successTokens w2
                = Some (<[Crypto.hex bytes' := t']>
                          (<[Crypto.hex bytes := t]> (default ∅ (successTokens w)))))
    by reflexivity.
  destruct (TokenFacts.redeem_stored bytes _ t w2 now Hne Hs2) as (Hsnd & Hok & Hexp & _).
  { rewrite lookup_insert_ne by congruence. apply lookup_insert_eq. }
  fold first in Hsnd, Hok, Hexp.
  split; [|split].
  - split; [|exact Hexp]. intros Hf.
    destruct (Z.lt_ge_cases (expires t) now) as [?|Hle]; [assumption|].
    apply Z.ge_le_iff in Hle. rewrite (Hok ltac:(lia)) in Hf. discriminate Hf.
  - rewrite Hsnd.
    destruct (TokenFacts.redeem_stored bytes' _ t'
                (with_tokens
                   (Some (delete (Crypto.hex bytes)
                            (<[Crypto.hex bytes' := t']>
                               (<[Crypto.hex bytes := t]> (default ∅ (successTokens w))))))
                   w2) now' Hne' eq_refl) as (_ & Hok' & _).
    { rewrite lookup_delete_ne by congruence. apply lookup_insert_eq. }
    by apply Hok'.
  - unfold mint, with_tokens. cbn [successTokens sheets processingPayments].
    change (default ∅ (Some ?m)) with m. by rewrite insert_insert_eq.
Qed.

Lemma distinct_bytes_distinct_tokens_witness :
  let w2 := mint (Crypto.hex Cases.bytes_2) Cases.token_2 Cases.one_token in
  fst (validate_success 1700000100000 (Some (Crypto.hex Cases.bytes_2))
         (snd (validate_success 1700000100000 (Some (Crypto.hex Samples.bytes_1)) w2)))
  = json (Confirmed (Some "order_2") (Some "pay_2") (Some (inject_Z 99900 / 100)%Q)).
Proof.
  intros w2.
  refine (proj1 (proj2 (distinct_bytes_distinct_tokens Samples.bytes_1 Cases.bytes_2
                          Cases.token_1 Cases.token_2 Samples.fresh
                          1700000100000 1700000100000 _ _ _ _ _ _))).
  - unfold Samples.bytes_1, byte. repeat constructor; lia.
  - unfold Cases.bytes_2, byte. repeat constructor; lia.
  - discriminate.
  - discriminate.
  - discriminate.
  - vm_compute. discriminate.
Defined.

End TableFacts.

(** ** The ways out of the callback; body and query *)

Module OutcomeFacts.
Import Js Server.

Lemma or_merged (a b : option string) :
  truthy (or (or a b) None) = truthy (or a b)
  /\ or_empty (or (or a b) None) = or_empty (or a b).
Proof.
  generalize (or a b). intros x. unfold or.
  destruct (truthy x) eqn:E; [by rewrite E|].
  split; [reflexivity|]. destruct x as [s|]; [|reflexivity].
  cbn in E. apply negb_false_iff, String.eqb_eq in E. by subst s.
Qed.

(** Every way out of the callback.  Whatever the request and whatever
    the network does, the callback leaves the whole state, the lock set
    included, as it found it, and its answer is decided by the request
    and the lock set alone: 400 when a parameter is missing, 409 when the
    payment id is locked, and 500 in every other case. *)
Theorem callback_outcomes env req w :
  let r := payment_callback env req w in
  snd r = w
  /\ (fst r = status_send 400 "Missing parameters" <-> missing_parameters req = true)
  /\ (fst r = status_send 409 "Duplicate request blocked"
      <-> missing_parameters req = false
          /\ or_empty (payment_id_of req) ∈ processingPayments w)
  /\ (fst r = status_send 500 "Server error"
      <-> missing_parameters req = false
          /\ (or_empty (payment_id_of req) ∉ processingPayments w)).
Proof.
  cbv zeta. rewrite Reach.payment_callback_cases. cbn [fst snd].
  split; [reflexivity|].
  destruct (missing_parameters req).
  - split; [done|]. split; (split; [discriminate | intros [? _]; discriminate]).
  - case_decide as Hl.
    + split; [split; discriminate|]. split; [done|].
      split; [discriminate | intros [_ ?]; done].
    + split; [split; discriminate|]. split; [|done].
      split; [discriminate | intros [_ ?]; done].
Qed.

(** The callback takes each of its three parameters from the body and,
    when the body has none or an empty one, from the query string.  In
    the current service a request whose parameters are spread over the
    two is handled as the form post of the merged parameters: same
    answer, same state.  In the earlier revision the two get the same
    page, and the same file when no parameter is missing; when one is,
    the FAILED entries differ, as each records the body and the query
    of its own request. *)
Theorem callback_merges_body_and_query env lenv p q lp lq w file :
  payment_callback env {| req_body := p; req_query := q |} w
  = payment_callback env
      {| req_body :=
           {| razorpay_payment_id := or (razorpay_payment_id p) (razorpay_payment_id q);
              razorpay_order_id := or (razorpay_order_id p) (razorpay_order_id q);
              razorpay_signature := or (razorpay_signature p) (razorpay_signature q) |};
         req_query := Samples.no_params |} w
  /\ let parted := {| Legacy.req_body := lp; Legacy.req_query := lq |} in
     let merged :=
       {| Legacy.req_body :=
            {| Legacy.razorpay_payment_id :=
                 or (Legacy.razorpay_payment_id lp) (Legacy.razorpay_payment_id lq);
               Legacy.razorpay_order_id :=
                 or (Legacy.razorpay_order_id lp) (Legacy.razorpay_order_id lq);
               Legacy.razorpay_signature :=
                 or (Legacy.razorpay_signature lp) (Legacy.razorpay_signature lq) |};
          Legacy.req_query :=
            {| Legacy.razorpay_payment_id := None; Legacy.razorpay_order_id := None;
               Legacy.razorpay_signature := None |} |} in
     let a := Legacy.payment_callback lenv parted file in
     let b := Legacy.payment_callback lenv merged file in
     fst a = fst b
     /\ if Legacy.missing_parameters parted
        then exists order_id payment_id,
            snd a
            = Legacy.saveTransaction
                (Legacy.failed_missing order_id payment_id parted (Legacy.cb_clock lenv))
                file
            /\ snd b
               = Legacy.saveTransaction
                   (Legacy.failed_missing order_id payment_id merged
                      (Legacy.cb_clock lenv))
                   file
        else snd a = snd b.
Proof.
  split.
  - rewrite !Reach.payment_callback_cases.
    unfold missing_parameters, payment_id_of, order_id_of, signature_of.
    cbn [req_body req_query razorpay_payment_id razorpay_order_id razorpay_signature
         Samples.no_params].
    destruct (or_merged (razorpay_payment_id p) (razorpay_payment_id q)) as [-> ->].
    destruct (or_merged (razorpay_order_id p) (razorpay_order_id q)) as [-> _].
    destruct (or_merged (razorpay_signature p) (razorpay_signature q)) as [-> _].
    reflexivity.
  - cbv zeta.
    unfold Legacy.payment_callback, Legacy.missing_parameters, Legacy.payment_id_of,
      Legacy.order_id_of, Legacy.signature_of.
    cbn [Legacy.req_body Legacy.req_query Legacy.razorpay_payment_id
         Legacy.razorpay_order_id Legacy.razorpay_signature].
    destruct (or_merged (Legacy.razorpay_payment_id lp) (Legacy.razorpay_payment_id lq))
      as [-> ->].
    destruct (or_merged (Legacy.razorpay_order_id lp) (Legacy.razorpay_order_id lq))
      as [-> ->].
    destruct (or_merged (Legacy.razorpay_signature lp) (Legacy.razorpay_signature lq))
      as [-> ->].
    destruct (negb _ || negb _ || negb _).
    + split; [reflexivity|]. eexists _, _. split; reflexivity.
    + split; reflexivity.
Qed.

End OutcomeFacts.

(** ** The file ledger of the two earlier revisions *)

Module FileFacts.
Import Js.

(** The entry [/verify_payment] saves for a captured payment. *)
Lemma legacy_verify_cases env req file :
  let r := Legacy.verify_payment env req file in
  (exists data,
      fst r = Server.json (Server.Verdict true None (Some data))
      /\ snd r = Legacy.saveTransaction (Entries.verified env req data) file)
  \/ (snd r = file
      /\ (Server.code (fst r) = 500
          \/ exists reason, fst r = Server.json (Server.Verdict false reason None))).
Proof.
  cbv zeta. unfold Legacy.verify_payment.
  destruct (negb (String.eqb _ (Legacy.body_signature req)));
    [right; split; [reflexivity | right; by eexists]|].
  destruct (Legacy.razorpay_payment env _) as [data|err];
    [|right; split; [reflexivity | by left]].
  destruct (negb (String.eqb (Server.pay_status data) "captured"));
    [right; split; [reflexivity | right; by eexists]|].
  left. by exists data.
Qed.

Lemma success_count_saved file (e : Legacy.Transaction) order_id payment_id :
  Legacy.status e = "SUCCESS" ->
  Legacy.order_id e = order_id ->
  Legacy.payment_id e = payment_id ->
  Legacy.success_count (Legacy.saveTransaction e file) order_id payment_id
  = S (Legacy.success_count file order_id payment_id).
Proof.
  intros He Ho Hp. rewrite StatusFacts.legacy_success_count_save.
  unfold Legacy.success_row. rewrite He, Ho, Hp, !String.eqb_refl. cbn. lia.
Qed.

(** The earlier revisions have no duplicate check: every verification
    of a captured payment with a good signature appends one more SUCCESS
    entry for the pair. *)
Theorem legacy_every_verification_is_saved env req file data n :
  Legacy.body_signature req
  = Server.generated_signature (Legacy.RAZORPAY_KEY_SECRET env)
      (Legacy.body_order_id req) (Legacy.body_payment_id req) ->
  Legacy.razorpay_payment env (Legacy.body_payment_id req) = Resolved data ->
  Server.pay_status data = "captured" ->
  Legacy.success_count
    (Nat.iter n (fun f => snd (Legacy.verify_payment env req f)) file)
    (Legacy.body_order_id req) (Legacy.body_payment_id req)
  = (Legacy.success_count file (Legacy.body_order_id req) (Legacy.body_payment_id req)
     + n)%nat.
Proof.
  intros Hs Hg Hc. induction n as [|n IH]; [cbn [Nat.iter nat_rect]; lia|].
  cbn [Nat.iter nat_rect]. unfold Nat.iter in IH.
  set (f := nat_rect _ _ _ n) in *.
  unfold Legacy.verify_payment. rewrite <- Hs, String.eqb_refl, Hg, Hc, String.eqb_refl.
  cbn [negb snd].
  rewrite success_count_saved by reflexivity. rewrite IH. lia.
Qed.

Lemma legacy_every_verification_is_saved_witness :
  Legacy.success_count
    (Nat.iter 2
       (fun f =>
          snd (Legacy.verify_payment (Samples.legacy_env_of (Resolved Samples.captured))
                 Samples.legacy_request_1 f))
       None)
    "order_1" "pay_1"
  = 2%nat.
Proof.
  apply (legacy_every_verification_is_saved
           (Samples.legacy_env_of (Resolved Samples.captured)) Samples.legacy_request_1
           None Samples.captured 2); [vm_compute; reflexivity | reflexivity | reflexivity].
Defined.

Lemma legacy_post_verify_cases link env req file :
  let r := Legacy.post_verify_payment link env req file in
  (exists data,
      fst r = Resolved (Server.Verdict true None (Some data))
      /\ snd r = Legacy.saveTransaction (Entries.verified env req data) file)
  \/ (exists reason, fst r = Resolved (Server.Verdict false reason None) /\ snd r = file)
  \/ (exists err,
         fst r = Rejected err
         /\ (snd r = file
             \/ exists data,
                  snd r = Legacy.saveTransaction (Entries.verified env req data) file)).
Proof.
  cbv zeta. pose proof (legacy_verify_cases env req file) as H. cbv zeta in H.
  unfold Legacy.post_verify_payment. destruct link.
  - right. right. eexists. split; [reflexivity | by left].
  - right. right. eexists. split; [reflexivity|].
    destruct H as [(data & _ & Hs) | (Hs & _)]; [right; by exists data | by left].
  - destruct (Legacy.verify_payment env req file) as [resp file1]. cbn [fst snd] in H.
    destruct H as [(data & -> & ->) | (-> & [Hc | (reason & ->)])].
    + left. by exists data.
    + right. right. rewrite Hc. eexists. split; [reflexivity | by left].
    + right. left. by exists reason.
Qed.

(** The POST callback of the later file revision saves an entry on every
    path.  When it shows the success page, the file has gained two
    SUCCESS entries for the pair, the one [/verify_payment] saved and its
    own; otherwise its own entry is a FAILED one, and the file may still
    have gained the SUCCESS entry of a verification whose reply was lost. *)
Theorem legacy_callback_always_logs env req file :
  let r := Legacy.payment_callback env req file in
  let order_id := or_empty (Legacy.order_id_of req) in
  let payment_id := or_empty (Legacy.payment_id_of req) in
  let vreq :=
    Entries.posted (Legacy.order_id_of req) (Legacy.payment_id_of req)
      (Legacy.signature_of req) in
  (exists data,
      fst r = Server.status_page 200 "Payment Successful"
      /\ snd r
         = Legacy.saveTransaction
             (Entries.confirmed (Legacy.cb_clock env) order_id payment_id data)
             (Legacy.saveTransaction (Entries.verified (Legacy.verify_env env) vreq data)
                file)
      /\ Legacy.success_count (snd r) order_id payment_id
         = (Legacy.success_count file order_id payment_id + 2)%nat)
  \/ (exists e,
         Legacy.status e = "FAILED"
         /\ (fst r = Server.status_page 400 "Payment Failed"
             \/ fst r = Server.status_page 200 "Payment Failed"
             \/ fst r = Server.status_page 500 "Payment Error")
         /\ (snd r = Legacy.saveTransaction e file
             \/ exists data,
                  snd r
                  = Legacy.saveTransaction e
                      (Legacy.saveTransaction
                         (Entries.verified (Legacy.verify_env env) vreq data) file))).
Proof.
  cbv zeta. unfold Legacy.payment_callback.
  destruct (Legacy.missing_parameters req).
  { right. eexists. split; [|split; [by left | left; reflexivity]]. reflexivity. }
  cbv zeta. fold (Entries.posted (Legacy.order_id_of req) (Legacy.payment_id_of req)
                    (Legacy.signature_of req)).
  set (vreq := Entries.posted _ _ _).
  pose proof (legacy_post_verify_cases (Legacy.verify_link env) (Legacy.verify_env env)
                vreq file) as H.
  cbv zeta in H.
  destruct (Legacy.post_verify_payment _ _ vreq file) as [resp file1]. cbn [fst snd] in H.
  destruct H as [(data & -> & ->) | [(reason & -> & ->) | (err & -> & Hf)]].
  - left. exists data. split; [reflexivity|]. split; [reflexivity|]. cbn [snd].
    rewrite !success_count_saved by reflexivity. lia.
  - right. eexists. split; [|split; [right; by left | left; reflexivity]]. reflexivity.
  - right.
    exists (Legacy.failed_error (or_empty (Legacy.order_id_of req))
              (or_empty (Legacy.payment_id_of req)) err (Legacy.cb_clock env)).
    split; [reflexivity|]. split; [right; by right|]. cbn [snd].
    destruct Hf as [-> | (data & ->)]; [by left | right; by exists data].
Qed.

(** The GET callback of the earliest revision answers every request
    with status 200 and saves nothing itself: the file is as it was, or
    has gained the one SUCCESS entry of the verification.  The success
    page comes with that entry, the "Payment Failed" pages come with an
    unchanged file, and the error page may come with either. *)
Theorem earliest_callback_saves_nothing_itself env query file :
  let r := Earliest.payment_callback env query file in
  let vreq :=
    Entries.posted (Legacy.razorpay_order_id query) (Legacy.razorpay_payment_id query)
      (Legacy.razorpay_signature query) in
  Server.code (fst r) = 200
  /\ ((exists data,
          fst r = Server.status_page 200 "Payment Successful"
          /\ snd r
             = Legacy.saveTransaction (Entries.verified (Legacy.verify_env env) vreq data)
                 file)
      \/ (fst r = Server.status_page 200 "Payment Failed" /\ snd r = file)
      \/ (fst r = Server.status_page 200 "Payment Error"
          /\ (snd r = file
              \/ exists data,
                   snd r
                   = Legacy.saveTransaction
                       (Entries.verified (Legacy.verify_env env) vreq data) file))).
Proof.
  cbv zeta. unfold Earliest.payment_callback.
  destruct (Earliest.missing_parameters query); [split; [reflexivity | right; by left]|].
  fold (Entries.posted (Legacy.razorpay_order_id query) (Legacy.razorpay_payment_id query)
          (Legacy.razorpay_signature query)).
  set (vreq := Entries.posted _ _ _).
  pose proof (legacy_post_verify_cases (Legacy.verify_link env) (Legacy.verify_env env)
                vreq file) as H.
  cbv zeta in H.
  destruct (Legacy.post_verify_payment _ _ vreq file) as [resp file1]. cbn [fst snd] in H.
  destruct H as [(data & -> & ->) | [(reason & -> & ->) | (err & -> & Hf)]].
  - split; [reflexivity|]. left. by exists data.
  - split; [reflexivity|]. right. by left.
  - split; [reflexivity|]. right. right. by split.
Qed.

End FileFacts.

(** ** What an acceptance implies *)

Module AcceptFacts.
Import Js.
Import Server (json, status_page, Verdict, generated_signature, pay_status, Answered).

Lemma legacy_verify_valid_inv env req file reason payment :
  fst (Legacy.verify_payment env req file) = json (Verdict true reason payment) ->
  exists data,
    payment = Some data
    /\ Legacy.body_signature req
       = generated_signature (Legacy.RAZORPAY_KEY_SECRET env)
           (Legacy.body_order_id req) (Legacy.body_payment_id req)
    /\ Legacy.razorpay_payment env (Legacy.body_payment_id req) = Resolved data
    /\ pay_status data = "captured"
    /\ snd (Legacy.verify_payment env req file)
       = Legacy.saveTransaction (Entries.verified env req data) file.
Proof.
  unfold Legacy.verify_payment.
  destruct (String.eqb_spec
              (generated_signature (Legacy.RAZORPAY_KEY_SECRET env)
                 (Legacy.body_order_id req) (Legacy.body_payment_id req))
              (Legacy.body_signature req)) as [He|Hne]; cbn [negb]; [|discriminate].
  destruct (Legacy.razorpay_payment env _) as [data|err]; [|discriminate].
  destruct (String.eqb_spec (pay_status data) "captured") as [Hc|Hc]; cbn [negb fst snd];
    [|discriminate].
  intros [= <- <-]. by exists data.
Qed.

Lemma legacy_post_valid_inv link env req file reason payment :
  fst (Legacy.post_verify_payment link env req file)
  = Resolved (Verdict true reason payment) ->
  link = Answered
  /\ fst (Legacy.verify_payment env req file) = json (Verdict true reason payment).
Proof.
  unfold Legacy.post_verify_payment. destruct link; [discriminate | discriminate |].
  pose proof (FileFacts.legacy_verify_cases env req file) as H. cbv zeta in H.
  destruct (Legacy.verify_payment env req file) as [resp file1]. cbn [fst snd] in H.
  destruct H as [(data & -> & _) | (_ & [Hc | (why & ->)])].
  - cbn. intros [= <- <-]. by split.
  - rewrite Hc. cbn. discriminate.
  - cbn. discriminate.
Qed.

(** In the two earlier revisions a payment is accepted only on the
    strength of both checks.  When [/verify_payment] answers
    [valid: true], the received signature is the computed one, the
    gateway returned the payment of the answer with status "captured",
    and the file has gained the SUCCESS entry of the pair; when the POST
    callback of the later revision or the GET callback of the earliest
    shows "Payment Successful", all three parameters were there, the
    request to [/verify_payment] was answered, the signature is the
    computed one and the gateway reported the payment as captured. *)
Theorem acceptance_is_sound :
  (forall env req file reason payment,
      fst (Legacy.verify_payment env req file) = json (Verdict true reason payment) ->
      exists data,
        payment = Some data
        /\ Legacy.body_signature req
           = generated_signature (Legacy.RAZORPAY_KEY_SECRET env)
               (Legacy.body_order_id req) (Legacy.body_payment_id req)
        /\ Legacy.razorpay_payment env (Legacy.body_payment_id req) = Resolved data
        /\ pay_status data = "captured"
        /\ snd (Legacy.verify_payment env req file)
           = Legacy.saveTransaction (Entries.verified env req data) file)
  /\ (forall env req file,
         fst (Legacy.payment_callback env req file)
         = status_page 200 "Payment Successful" ->
         exists data,
           Legacy.missing_parameters req = false
           /\ Legacy.verify_link env = Answered
           /\ or_empty (Legacy.signature_of req)
              = generated_signature (Legacy.RAZORPAY_KEY_SECRET (Legacy.verify_env env))
                  (or_empty (Legacy.order_id_of req))
                  (or_empty (Legacy.payment_id_of req))
           /\ Legacy.razorpay_payment (Legacy.verify_env env)
                (or_empty (Legacy.payment_id_of req)) = Resolved data
           /\ pay_status data = "captured")
  /\ (forall env query file,
         fst (Earliest.payment_callback env query file)
         = status_page 200 "Payment Successful" ->
         exists data,
           Earliest.missing_parameters query = false
           /\ Legacy.verify_link env = Answered
           /\ or_empty (Legacy.razorpay_signature query)
              = generated_signature (Legacy.RAZORPAY_KEY_SECRET (Legacy.verify_env env))
                  (or_empty (Legacy.razorpay_order_id query))
                  (or_empty (Legacy.razorpay_payment_id query))
           /\ Legacy.razorpay_payment (Legacy.verify_env env)
                (or_empty (Legacy.razorpay_payment_id query)) = Resolved data
           /\ pay_status data = "captured").
Proof.
  split; [exact legacy_verify_valid_inv|]. split.
  - intros env req file. unfold Legacy.payment_callback.
    destruct (Legacy.missing_parameters req); [discriminate|]. cbv zeta.
    set (vreq := {| Legacy.body_order_id := or_empty (Legacy.order_id_of req) |}).
    pose proof (legacy_post_valid_inv (Legacy.verify_link env) (Legacy.verify_env env)
                  vreq file) as Hpost.
    destruct (Legacy.post_verify_payment _ _ vreq file) as [resp file1].
    cbn [fst] in Hpost.
    destruct resp as [[valid reason [payment|]| | | | |]|err]; try destruct valid;
      try discriminate.
    intros _. destruct (Hpost reason (Some payment) eq_refl) as [Hlink Hv].
    apply legacy_verify_valid_inv in Hv as (data & [= <-] & Hs & Hg & Hc & _).
    exists payment. by repeat split.
  - intros env query file. unfold Earliest.payment_callback.
    destruct (Earliest.missing_parameters query); [discriminate|].
    set (vreq := {| Legacy.body_order_id := or_empty (Legacy.razorpay_order_id query) |}).
    pose proof (legacy_post_valid_inv (Legacy.verify_link env) (Legacy.verify_env env)
                  vreq file) as Hpost.
    destruct (Legacy.post_verify_payment _ _ vreq file) as [resp file1].
    cbn [fst] in Hpost.
    destruct resp as [[valid reason [payment|]| | | | |]|err]; try destruct valid;
      try discriminate.
    intros _. destruct (Hpost reason (Some payment) eq_refl) as [Hlink Hv].
    apply legacy_verify_valid_inv in Hv as (data & [= <-] & Hs & Hg & Hc & _).
    exists payment. by repeat split.
Qed.

(** The theorem at work: the verification and the two callbacks for
    order_1 / pay_1, captured, on an empty file. *)
Lemma acceptance_is_sound_witness :
  (exists data,
      Some Samples.captured = Some data
      /\ Samples.signature_1 = generated_signature "s3cret" "order_1" "pay_1"
      /\ Resolved Samples.captured = Resolved data
      /\ pay_status data = "captured"
      /\ snd (Legacy.verify_payment (Samples.legacy_env_of (Resolved Samples.captured))
                Samples.legacy_request_1 None)
         = Legacy.saveTransaction
             (Entries.verified (Samples.legacy_env_of (Resolved Samples.captured))
                Samples.legacy_request_1 data) None)
  /\ (exists data,
         Legacy.missing_parameters Samples.legacy_callback_1 = false
         /\ Answered = Answered
         /\ Samples.signature_1 = generated_signature "s3cret" "order_1" "pay_1"
         /\ Resolved Samples.captured = Resolved data
         /\ pay_status data = "captured")
  /\ (exists data,
         Earliest.missing_parameters (Legacy.req_body Samples.legacy_callback_1) = false
         /\ Answered = Answered
         /\ Samples.signature_1 = generated_signature "s3cret" "order_1" "pay_1"
         /\ Resolved Samples.captured = Resolved data
         /\ pay_status data = "captured").
Proof.
  destruct acceptance_is_sound as (Hverify & Hcallback & Hearliest).
  split; [|split].
  - apply (Hverify (Samples.legacy_env_of (Resolved Samples.captured))
             Samples.legacy_request_1 None None (Some Samples.captured)).
    vm_compute. reflexivity.
  - apply (Hcallback (Samples.legacy_cb_env_of Answered (Resolved Samples.captured))
             Samples.legacy_callback_1 None).
    vm_compute. reflexivity.
  - apply (Hearliest (Samples.legacy_cb_env_of Answered (Resolved Samples.captured))
             (Legacy.req_body Samples.legacy_callback_1) None).
    vm_compute. reflexivity.
Defined.

End AcceptFacts.

(** ** The catalog and the order *)

Module OrderFacts.
Import Js Orders.

Lemma assign_proto courses (m : gmap string Z) :
  fold_left assign courses m !! "__proto__" = m !! "__proto__".
Proof.
  revert m. induction courses as [|c rest IH]; intros m; [reflexivity|].
  cbn [fold_left]. rewrite IH. unfold assign.
  destruct (String.eqb_spec (name c) "__proto__") as [E|E]; [reflexivity|].
  by rewrite lookup_insert_ne.
Qed.

Lemma assign_lookup courses (m : gmap string Z) k :
  k <> "__proto__" ->
  fold_left assign courses m !! k
  = match last_price k courses with Some q => Some q | None => m !! k end.
Proof.
  intros Hk. revert m. induction courses as [|c rest IH]; intros m; [reflexivity|].
  cbn [fold_left last_price]. rewrite IH.
  destruct (last_price k rest) as [q|]; [reflexivity|].
  unfold assign. destruct (String.eqb_spec (name c) k) as [E|E].
  - subst k. destruct (String.eqb_spec (name c) "__proto__") as [E|_]; [done|].
    by rewrite lookup_insert_eq.
  - destruct (String.eqb (name c) "__proto__"); [reflexivity|].
    by rewrite lookup_insert_ne.
Qed.

(** The catalog built at start-up maps a name to the price of the last
    entry of the file with that name, and has no entry called
    [__proto__] whatever the file holds. *)
Theorem catalog_is_last_price courses k :
  load courses !! k = if String.eqb k "__proto__" then None else last_price k courses.
Proof.
  unfold load. destruct (String.eqb_spec k "__proto__") as [->|Hk].
  - by rewrite assign_proto.
  - rewrite assign_lookup by assumption. by destruct (last_price k courses).
Qed.

(** A request is refused with 400 exactly when no request goes to the
    gateway, and that is exactly when the course is absent or empty, is
    in the catalog at price zero, or is neither in the catalog nor the
    name of an inherited property. *)
Theorem create_order_refusals env allowedCourses course :
  let r := create_order env allowedCourses course in
  (fst r = {| code := 400; body := Error "Invalid course selected" |} <-> snd r = None)
  /\ (snd r = None
      <-> course = None \/ course = Some ""
          \/ exists k,
               course = Some k
               /\ ((allowedCourses !! k = Some 0)
                   \/ (allowedCourses !! k = None /\ inherited k = false))).
Proof.
  cbv zeta. unfold create_order.
  destruct course as [k|]; cbn [truthy or_empty negb orb];
    [|split; [done | split; [by left | done]]].
  destruct (String.eqb_spec k "") as [->|Hk]; cbn [negb orb];
    [split; [done | split; [right; by left | done]]|].
  unfold get. destruct (allowedCourses !! k) as [q|] eqn:Hq; cbn [truthy_price].
  - destruct (Z.eqb_spec q 0) as [->|Hz]; cbn [negb fst snd].
    + split; [done|]. split; [|done]. intros _. right. right. exists k.
      split; [reflexivity|]. by left.
    + split.
      * split; [|discriminate]. destruct (orders_api env _); discriminate.
      * split; [discriminate|].
        intros [?|[?|(k' & Hk' & [Hq' | [Hn _]])]]; congruence.
  - destruct (inherited k) eqn:Hi; cbn [negb fst snd].
    + split.
      * split; [|discriminate]. destruct (orders_api env _); discriminate.
      * split; [discriminate|].
        intros [?|[?|(k' & Hk' & [Hq' | [_ Hi']])]]; congruence.
    + split; [done|]. split; [|done]. intros _. right. right. exists k.
      split; [reflexivity|]. by right.
Qed.

(** An integer up to 2^53 in size is a double: the product is exact. *)
Lemma to_double_exact z : Z.abs z <= 2 ^ 53 -> to_double z = Some z.
Proof.
  intros Hz. unfold to_double. cbv zeta.
  destruct (Z.leb_spec (Z.log2 (Z.abs z) - 52) 0) as [_|He]; [reflexivity|].
  assert (Hpos : 0 < Z.abs z).
  { destruct (Z.eq_dec (Z.abs z) 0) as [E|E]; [rewrite E in He; cbn in He; lia | lia]. }
  pose proof (Z.log2_spec (Z.abs z) Hpos) as [Hlo _].
  assert (Hpow : 2 ^ 53 <= 2 ^ Z.log2 (Z.abs z)) by (apply Z.pow_le_mono_r; lia).
  assert (Ha : Z.abs z = 2 ^ 53) by lia.
  assert (Hcase : z = 2 ^ 53 \/ z = - 2 ^ 53) by lia.
  destruct Hcase as [-> | ->]; vm_compute; reflexivity.
Qed.

(** Beyond that it is rounded: one hundred times 360287970189641. *)
Example to_double_rounds :
  360287970189641 * 100 = 36028797018964100
  /\ to_double (360287970189641 * 100) = Some 36028797018964096.
Proof. split; vm_compute; reflexivity. Qed.

(** For a course of the file with a price that is not zero and whose
    hundredfold is an integer that doubles hold exactly (up to 2^53 in
    size), the amount sent to the gateway is one hundred times the last
    price the file gives for it, in INR and with capture on; the answer
    relays what the gateway returns: its order with the key id on success
    and, with status 500, its error body, or the error message when there
    is no body. *)
Theorem create_order_charges_catalog_price env courses k q :
  k <> "" -> k <> "__proto__" -> last_price k courses = Some q -> q <> 0 ->
  Z.abs (q * 100) <= 2 ^ 53 ->
  let request :=
    {| amount := Some (q * 100); currency := "INR";
       receipt := receipt_of (Date_now env); payment_capture := 1 |} in
  create_order env (load courses) (Some k)
  = (match orders_api env request with
     | Created data =>
         {| code := 200;
            body := OrderCreated (id data) (order_amount data) (order_currency data) k
                      (RAZORPAY_KEY_ID env) |}
     | Refused data message =>
         {| code := 500;
            body := if String.eqb data "" then Error message else Relayed data |}
     | Failed message => {| code := 500; body := Error message |}
     end, Some request).
Proof.
  intros Hk Hp Hq Hz Hsafe. cbv zeta. unfold create_order. cbn [truthy or_empty].
  apply String.eqb_neq in Hk. apply Z.eqb_neq in Hz. unfold get, load.
  rewrite (assign_lookup _ _ _ Hp), Hk, Hq. cbn [negb orb truthy_price times_100].
  by rewrite Hz, (to_double_exact _ Hsafe).
Qed.

Lemma create_order_charges_catalog_price_witness :
  create_order (Shop.env_of (Created Shop.order_1)) (load Shop.courses) (Some "Python Basics")
  = ({| code := 200;
        body := OrderCreated "order_1" 59900 "INR" "Python Basics" "rzp_test_key" |},
     Some {| amount := Some 59900; currency := "INR";
             receipt := "receipt_1700000000000"; payment_capture := 1 |}).
Proof.
  apply (create_order_charges_catalog_price (Shop.env_of (Created Shop.order_1))
           Shop.courses "Python Basics" 599);
    [discriminate | discriminate | reflexivity | discriminate | vm_compute; discriminate].
Defined.

(** A course name that plain objects inherit and the file does not
    define passes the validation: a request goes to the gateway with an
    amount that is not a number.  For [__proto__] this is so whatever
    the file holds. *)
Theorem inherited_course_name_is_ordered env courses k :
  inherited k = true -> k = "__proto__" \/ last_price k courses = None ->
  snd (create_order env (load courses) (Some k))
  = Some {| amount := None; currency := "INR";
            receipt := receipt_of (Date_now env); payment_capture := 1 |}.
Proof.
  intros Hi Hk. unfold create_order. cbn [truthy or_empty].
  assert (Hne : String.eqb k "" = false).
  { apply String.eqb_neq. intros ->. discriminate Hi. }
  assert (Hl : load courses !! k = None).
  { rewrite catalog_is_last_price. destruct Hk as [-> | ->]; [reflexivity|].
    by destruct (String.eqb k "__proto__"). }
  unfold get. rewrite Hne, Hl, Hi. reflexivity.
Qed.

Lemma inherited_course_name_is_ordered_witness :
  snd (create_order (Shop.env_of (Refused "{error:{code:BAD_REQUEST_ERROR}}" "Request failed"))
         (load Shop.courses) (Some "constructor"))
  = Some {| amount := None; currency := "INR";
            receipt := "receipt_1700000000000"; payment_capture := 1 |}.
Proof.
  apply (inherited_course_name_is_ordered
           (Shop.env_of (Refused "{error:{code:BAD_REQUEST_ERROR}}" "Request failed")) Shop.courses
           "constructor"); [reflexivity | right; reflexivity].
Defined.

End OrderFacts.

